(** * nboost: the proxy orchestrator ([nboost/proxy/__init__.py])

    A shallow embedding of [Proxy.__init__] (the [track] wrapper, the five
    route closures and the routing table) and of the proxy's life cycle
    ([enter], [exit], [__enter__], [__exit__]).

    The four components (server, model, codex, db) are pluggable classes
    whose code lives outside this module; they are records of methods here
    and every statement is proved for arbitrary components.

    Python effects are explicit:
    - everything the interpreter holds outside local variables (component
      attributes, the clock, the network) is one state of type [St];
    - a call either returns or raises ([Res]);
    - a call may return an awaitable, which is run by [await];
    - a [StopIteration] that leaves the body of an [async def] is replaced
      by a [RuntimeError] ([coroutine]);
    - the proxy's calls into its components are recorded, in order and with
      their arguments, in a call log ([trace]).  The log is bookkeeping of
      the model: components cannot read or change it. *)

From stdpp Require Import base option list strings numbers gmap.
From Stdlib Require Import Ascii String QArith Lqa.
Close Scope Q_scope.
Local Open Scope string_scope.
Local Open Scope list_scope.

(** ** Route kinds and route closures *)

(** Modelled from the spec: the enum [Route] of [nboost/base/types.py]; the
    routing table of [Proxy.__init__] uses these four members. *)
Inductive Route := SEARCH | TRAIN | STATUS | ERROR.

#[global] Instance Route_eq_dec : EqDecision Route.
Proof. solve_decision. Defined.

Definition Route_code (r : Route) : nat :=
  match r with SEARCH => 0 | TRAIN => 1 | STATUS => 2 | ERROR => 3 end.

Definition Route_of_code (n : nat) : Route :=
  match n with 0 => SEARCH | 1 => TRAIN | 2 => STATUS | _ => ERROR end.

#[global] Instance Route_countable : Countable Route.
Proof.
  apply (inj_countable' Route_code Route_of_code).
  intros []; reflexivity.
Defined.

(** The five closures defined by [Proxy.__init__].  A routing table stores a
    closure by its name; [handler] (below) gives the closure a name denotes. *)
Inductive Closure := SearchFn | TrainFn | StatusFn | NotFoundFn | ErrorFn.

#[global] Instance Closure_eq_dec : EqDecision Closure.
Proof. solve_decision. Defined.

(** ** Exceptions *)

(** What the coroutines of the proxy depend on in an exception: whether it
    is a [StopIteration], and the [RuntimeError] ("coroutine raised
    StopIteration", caused by it) that Python raises in its place when it
    leaves a coroutine.  A [RuntimeError] is not a [StopIteration]. *)
Class PyExn (Exn : Type) : Type := mkPyExn {
  is_StopIteration : Exn -> bool;
  coroutine_raised_StopIteration : Exn -> Exn;
  RuntimeError_is_not_StopIteration :
    forall e, is_StopIteration (coroutine_raised_StopIteration e) = false
}.

(** ** Outcomes, steps and awaitables *)

Section Runtime.

(** The interpreter state and the value types of [nboost/base/types.py],
    all opaque to the proxy.  [Value] is what a status dictionary holds,
    [Path] what the codex binds a route to, [Exn] the raised exceptions. *)
Context {St Request Response Query Choices Ranks Qid Cid Labels
         Path Value Exn : Type} {py_exn : PyExn Exn}.

(** [time.perf_counter]: the reading, in seconds, of the clock in a state.
    Readings, and the samples computed from them, are floats in the source
    and exact rationals here: a sample below is the value the source
    computes up to rounding, and only its sign, which rounding keeps, is
    ever compared. *)
Variable perf_counter : St -> Q.

(** The outcome of a call: a value, or a raised exception. *)
Inductive Res (A : Type) : Type :=
| Ok (v : A)
| Raise (e : Exn).
Arguments Ok {A} v.
Arguments Raise {A} e.

(** A computation of a component: it reads and updates the state. *)
Definition Step (A : Type) : Type := St -> Res A * St.

(** What a call hands back: a plain value, or an awaitable ([K] is the type
    of the suspended computation), as told apart by [inspect.isawaitable]. *)
Inductive Returned (K A : Type) : Type :=
| Plain (v : A)
| Awaitable (k : K).
Arguments Plain {K A} v.
Arguments Awaitable {K A} k.

(** A method of a component, called with its arguments applied: it may
    raise at once, return a value, or return an awaitable. *)
Definition Method (A : Type) : Type := Step (Returned (Step A) A).

(** A status dictionary and a routing table ([Dict] of [typing]). *)
Abbreviation Dict := (gmap string Value).
Abbreviation RouteTable := (gmap Route (Path * Closure)).

(** ** The call log *)

Inductive Event : Type :=
(* construction *)
| SuperInit (kwargs : Dict)
| NewServer (host : string) (port : Z) (ext_host : string) (ext_port : Z)
| NewModel (lr : Q) (data_dir : string)
| NewCodex (multiplier : Z) (field : option string)
| NewDb
| CreateApp (routes : RouteTable)
| LogInfo (msg : string)
| LogCritical (msg : string)
(* server *)
| Start
| Wait
| Exit
| Join
| Ask (r : Request)
| Forward (r : Request)
| ServerChainState (d : Dict)
(* codex *)
| Magnify (r : Request)
| Parse (r : Request) (u : Response)
| Pack (r : Request) (u : Response) (q : Query) (c : Choices) (k : Ranks)
       (qid : Qid) (cids : list Cid)
| Pluck (r : Request)
| Ack (qid : Qid) (cids : list Cid)
| Catch (e : Exn)
| Pulse (d : Dict)
| CodexChainState (d : Dict)
(* model *)
| Rank (q : Query) (c : Choices)
| Train (q : Query) (c : Choices) (l : Labels)
| ModelChainState (d : Dict)
(* db *)
| Save (q : Query) (c : Choices)
| Get (qid : Qid) (cids : list Cid)
| DbChainState (d : Dict)
| Lap (ms : Q) (cls func : string).

(** [is_lap e]: the event is a latency sample handed to [db.lap]. *)
Definition is_lap (e : Event) : bool :=
  match e with Lap _ _ _ => true | _ => false end.

(** The latency samples among logged calls. *)
Definition laps (t : list Event) : list Event := List.filter is_lap t.

(** The status dictionary most recently handed to [codex.pulse]. *)
Fixpoint last_pulse (t : list Event) : option Dict :=
  match t with
  | [] => None
  | e :: t' =>
      match last_pulse t' with
      | Some d => Some d
      | None => match e with Pulse d => Some d | _ => None end
      end
  end.

(** The callee of a logged call, as the source names it; [db.lap] apart. *)
Definition callee (e : Event) : option string :=
  match e with
  | SuperInit _ => Some "__init__"
  | NewServer _ _ _ _ => Some "server"
  | NewModel _ _ => Some "model"
  | NewCodex _ _ => Some "codex"
  | NewDb => Some "db"
  | CreateApp _ => Some "create_app"
  | LogInfo _ => Some "info"
  | LogCritical _ => Some "critical"
  | Start => Some "start"
  | Wait => Some "wait"
  | Exit => Some "exit"
  | Join => Some "join"
  | Ask _ => Some "ask"
  | Forward _ => Some "forward"
  | ServerChainState _ | CodexChainState _ | ModelChainState _
  | DbChainState _ => Some "chain_state"
  | Magnify _ => Some "magnify"
  | Parse _ _ => Some "parse"
  | Pack _ _ _ _ _ _ _ => Some "pack"
  | Pluck _ => Some "pluck"
  | Ack _ _ => Some "ack"
  | Catch _ => Some "catch"
  | Pulse _ => Some "pulse"
  | Rank _ _ => Some "rank"
  | Train _ _ _ => Some "train"
  | Save _ _ => Some "save"
  | Get _ _ => Some "get"
  | Lap _ _ _ => None
  end.

(** The callees of the logged calls, in order. *)
Definition calls (t : list Event) : list string := omap callee t.

(** ** The proxy's own computations *)

Record World : Type := mkWorld { st : St; trace : list Event }.

Definition M (A : Type) : Type := World -> Res A * World.

Definition ret {A} (v : A) : M A := fun w => (Ok v, w).

Definition raise {A} (e : Exn) : M A := fun w => (Raise e, w).

(** One statement after another: an exception of the first ends the
    sequence.  Inside the body of an [async def] the exception is still the
    one raised; what Python does to it when it leaves the body is
    [coroutine], below. *)
Definition bind {A B} (m : M A) (k : A -> M B) : M B :=
  fun w => match m w with
           | (Ok v, w') => k v w'
           | (Raise e, w') => (Raise e, w')
           end.

Notation "'let!' x ':=' m 'in' k" := (bind m (fun x => k))
  (at level 10, x name, m at level 100, k at level 200).
Notation "'do!' m 'in' k" := (bind m (fun _ => k))
  (at level 10, m at level 100, k at level 200).

(** Record a call in the log.  [self.logger.info] and
    [self.logger.critical] are such records and nothing more. *)
Definition log (e : Event) : M unit :=
  fun w => (Ok tt, mkWorld (st w) (trace w ++ [e])).

(** Run a component's computation: the log is out of its reach. *)
Definition lift {A} (m : Step A) : M A :=
  fun w => let (r, s) := m (st w) in (r, mkWorld s (trace w)).

(** What a call of the proxy's own code hands back. *)
Definition PyCall (A : Type) : Type := M (Returned (M A) A).

(** A call of a component's method: the call is logged, then the method
    runs; an awaitable it returns runs, when awaited, on the state of
    that moment. *)
Definition invoke {A} (e : Event) (m : Method A) : PyCall A :=
  do! log e in
  let! r := lift m in
  ret (match r with
       | Plain v => Plain v
       | Awaitable k => Awaitable (lift k)
       end).

(** A call of a component's method that the source does not await: what the
    call returns is the value. *)
Definition invoke_now {A} (e : Event) (m : Step A) : M A :=
  do! log e in lift m.

(** [await res if isawaitable(res) else res] *)
Definition await_if_awaitable {A} (res : Returned (M A) A) : M A :=
  match res with
  | Awaitable k => k
  | Plain v => ret v
  end.

(** The exception that comes out of a coroutine in which [e] was raised and
    not caught. *)
Definition leave_coroutine (e : Exn) : Exn :=
  if is_StopIteration e then coroutine_raised_StopIteration e else e.

(** The body of an [async def] run as a coroutine: a value is returned as
    it is; an exception leaves through [leave_coroutine]. *)
Definition coroutine {A} (body : M A) : M A :=
  fun w =>
    match body w with
    | (Ok v, w') => (Ok v, w')
    | (Raise e, w') => (Raise (leave_coroutine e), w')
    end.

(** ** Callables *)

(** What [track] looks at in the callable it wraps: [self_class] is
    [f.__self__.__class__.__name__] when [f] has the attribute [__self__]
    (a bound method) and [None] when it has not (a plain function);
    [name] is [f.__name__]; [call] is [f( *args )]. *)
Record Callable (A B : Type) : Type := mkCallable {
  self_class : option string;
  name : string;
  call : A -> PyCall B
}.
Arguments mkCallable {A B}.
Arguments self_class {A B}.
Arguments name {A B}.
Arguments call {A B}.

(** [async def name(args): body]: a plain function; a call runs nothing and
    returns the coroutine of the body. *)
Definition async_def {A B} (nm : string) (body : A -> M B) : Callable A B :=
  mkCallable None nm (fun a => ret (Awaitable (coroutine (body a)))).

(** ** The components *)

(** [StatefulBase]: what every component inherits — the name of its class
    and [chain_state], called without [await] by [status]. *)
Record StatefulBase : Type := mkStateful {
  class_name : string;
  chain_state : Dict -> Step Dict
}.

(** [chain_state] of a component adds the same keys in states related by
    [R] (states that differ in time-varying fields only), and leaves such
    states related. *)
Definition keys_stable (R : St -> St -> Prop) (x : StatefulBase) : Prop :=
  forall (d d' d1 d1' : Dict) (s s' s1 s1' : St),
    R s s' -> dom d = dom d' ->
    chain_state x d s = (Ok d1, s1) ->
    chain_state x d' s' = (Ok d1', s1') ->
    dom d1 = dom d1' /\ R s1 s1'.

(** [chain_state] of a component is the pure function [g]. *)
Definition pure_chain_state (x : StatefulBase) (g : Dict -> Dict) : Prop :=
  forall (d : Dict) (s : St), chain_state x d s = (Ok (g d), s).

(** [threading.Event]-like readiness signal of the server. *)
Record Signal : Type := mkSignal {
  wait : Step unit
}.

(** The interfaces of [..server], [..codex], [..model] and [..db], as far
    as the proxy uses them.  [codex.SEARCH], ..., [codex.ERROR] are
    [SEARCH_path], ..., [ERROR_path]: the bare names are the members of
    [Route]. *)
Record BaseServer : Type := mkServer {
  server_base :> StatefulBase;
  ask : Request -> Method Response;
  forward : Request -> Method Response;
  create_app : RouteTable -> Step unit;
  is_ready : Signal;
  start : Step unit;
  exit : Step unit;
  join : Step unit
}.

Record BaseCodex : Type := mkCodex {
  codex_base :> StatefulBase;
  SEARCH_path : Path;
  TRAIN_path : Path;
  STATUS_path : Path;
  ERROR_path : Path;
  magnify : Request -> Method Request;
  parse : Request -> Response -> Method (Query * Choices);
  pack : Request -> Response -> Query -> Choices -> Ranks -> Qid -> list Cid ->
         Method Response;
  pluck : Request -> Method (Qid * list Cid);
  ack : Qid -> list Cid -> Method Response;
  catch : Exn -> Method Response;
  pulse : Dict -> Step Response
}.

Record BaseModel : Type := mkModel {
  model_base :> StatefulBase;
  rank : Query -> Choices -> Method Ranks;
  train : Query -> Choices -> Labels -> Method unit
}.

(** [lap(ms, cls, func)] is called by [track] without [await] and what it
    returns is dropped; like any call it may raise. *)
Record BaseDb : Type := mkDb {
  db_base :> StatefulBase;
  save : Query -> Choices -> Method (Qid * list Cid);
  get : Qid -> list Cid -> Method (Query * Choices * Labels);
  lap : Q -> string -> string -> Step unit
}.

(** ** [track] and the route closures *)

Section Closures.

(** [self.__class__.__name__] of the proxy under construction and the four
    component instances the closures capture. *)
Variable self_class_name : string.
Variable server : BaseServer.
Variable model : BaseModel.
Variable codex : BaseCodex.
Variable db : BaseDb.

(** [time.perf_counter()] *)
Definition now : M Q := fun w => (Ok (perf_counter (st w)), w).

(** [db.lap(ms, cls, func)] *)
Definition db_lap (ms : Q) (cls func : string) : M unit :=
  invoke_now (Lap ms cls func) (lap db ms cls func).

(** [ident = (cls, f.__name__)] *)
Definition ident {A B} (f : Callable A B) : string * string :=
  let cls := match self_class f with
             | Some c => c
             | None => self_class_name
             end in
  (cls, name f).

(** [track(f)( *args )], awaited: the body of [async def decorator] run as
    a coroutine. *)
Definition track {A B} (f : Callable A B) : A -> M B :=
  fun args =>
    coroutine (
      let! start := now in
      let! res := call f args in
      let! ret_ := await_if_awaitable res in
      let! stop := now in
      let ms := ((stop - start) * 1000)%Q in
      do! db_lap ms (ident f).1 (ident f).2 in
      ret ret_).

(** The wrapped operation run to completion: [f( *args )], awaited when it
    is awaitable. *)
Definition settle {A B} (f : Callable A B) (args : A) : M B :=
  let! res := call f args in
  await_if_awaitable res.

(** [(stop - start) * 1000] for an operation started in state [s] and
    completed in state [s']. *)
Definition elapsed_ms (s s' : St) : Q :=
  ((perf_counter s' - perf_counter s) * 1000)%Q.

(** [db.lap] called with the sample of such an operation. *)
Definition lapped (cls func : string) (s s' : St) : Res unit * St :=
  lap db (elapsed_ms s s') cls func s'.

(** A method of a component run to completion. *)
Definition complete {A} (m : Method A) : Step A :=
  fun s =>
    match m s with
    | (Ok (Plain v), s1) => (Ok v, s1)
    | (Ok (Awaitable k), s1) => k s1
    | (Raise e, s1) => (Raise e, s1)
    end.

(** A bound method [self.nm] of a component as a callable.  The methods the
    proxy tracks are instance methods defined under their own names:
    [__self__] is the component and [__name__] is [nm]. *)
Definition bound {A B} (self : StatefulBase) (nm : string)
    (ev : A -> Event) (m : A -> Method B) : Callable A B :=
  mkCallable (Some (class_name self)) nm (fun a => invoke (ev a) (m a)).

Definition codex_magnify : Callable Request Request :=
  bound codex "magnify" Magnify (magnify codex).

Definition server_ask : Callable Request Response :=
  bound server "ask" Ask (ask server).

Definition codex_parse : Callable (Request * Response) (Query * Choices) :=
  bound codex "parse" (fun a => Parse a.1 a.2) (fun a => parse codex a.1 a.2).

Definition model_rank : Callable (Query * Choices) Ranks :=
  bound model "rank" (fun a => Rank a.1 a.2) (fun a => rank model a.1 a.2).

Definition db_save : Callable (Query * Choices) (Qid * list Cid) :=
  bound db "save" (fun a => Save a.1 a.2) (fun a => save db a.1 a.2).

Definition codex_pack :
    Callable (Request * Response * (Query * Choices) * Ranks * (Qid * list Cid))
             Response :=
  bound codex "pack"
    (fun '(r, u, qc, k, ids) => Pack r u qc.1 qc.2 k ids.1 ids.2)
    (fun '(r, u, qc, k, ids) => pack codex r u qc.1 qc.2 k ids.1 ids.2).

Definition codex_pluck : Callable Request (Qid * list Cid) :=
  bound codex "pluck" Pluck (pluck codex).

Definition db_get : Callable (Qid * list Cid) (Query * Choices * Labels) :=
  bound db "get" (fun a => Get a.1 a.2) (fun a => get db a.1 a.2).

Definition model_train : Callable (Query * Choices * Labels) unit :=
  bound model "train" (fun a => Train a.1.1 a.1.2 a.2)
                      (fun a => train model a.1.1 a.1.2 a.2).

Definition codex_ack : Callable (Qid * list Cid) Response :=
  bound codex "ack" (fun a => Ack a.1 a.2) (fun a => ack codex a.1 a.2).

Definition server_forward : Callable Request Response :=
  bound server "forward" Forward (forward server).

Definition codex_catch : Callable Exn Response :=
  bound codex "catch" Catch (catch codex).

(** [async def search(_1)], before [@track]. *)
Definition search_fn : Callable Request Response :=
  async_def "search" (fun _1 =>
    let! _2 := track codex_magnify _1 in
    let! _3 := track server_ask _2 in
    let! _4 := track codex_parse (_2, _3) in
    let! _5 := track model_rank _4 in
    let! _6 := track db_save _4 in
    let! _7 := track codex_pack (_1, _3, _4, _5, _6) in
    ret _7).

Definition search : Request -> M Response := track search_fn.

(** [async def train(_1)], before [@track].  The decorated closure is
    [train_]: the name [train] is the model's method. *)
Definition train_fn : Callable Request Response :=
  async_def "train" (fun _1 =>
    let! _2 := track codex_pluck _1 in
    let! _3 := track db_get _2 in
    do! track model_train _3 in
    let! _4 := track codex_ack _2 in
    ret _4).

Definition train_ : Request -> M Response := track train_fn.

(** [async def status(_1)], before [@track]. *)
Definition status_fn : Callable Request Response :=
  async_def "status" (fun _1 =>
    let! _2 := invoke_now (ServerChainState ∅) (chain_state server ∅) in
    let! _3 := invoke_now (CodexChainState _2) (chain_state codex _2) in
    let! _4 := invoke_now (ModelChainState _3) (chain_state model _3) in
    let! _5 := invoke_now (DbChainState _4) (chain_state db _4) in
    let! _6 := invoke_now (Pulse _5) (pulse codex _5) in
    ret _6).

Definition status : Request -> M Response := track status_fn.

(** [async def not_found(_1)], before [@track]. *)
Definition not_found_fn : Callable Request Response :=
  async_def "not_found" (fun _1 =>
    let! _2 := track server_forward _1 in
    ret _2).

Definition not_found : Request -> M Response := track not_found_fn.

(** [async def error(_1)], before [@track]. *)
Definition error_fn : Callable Exn Response :=
  async_def "error" (fun _1 =>
    let! _2 := track codex_catch _1 in
    ret _2).

Definition error : Exn -> M Response := track error_fn.

(** What the server can do with an entry of the table: call it with a
    request, or with the exception of a failed route. *)
Inductive Handler : Type :=
| OnRequest (h : Request -> M Response)
| OnError (h : Exn -> M Response).

(** The closure a name in the routing table stands for. *)
Definition handler (c : Closure) : Handler :=
  match c with
  | SearchFn => OnRequest search
  | TrainFn => OnRequest train_
  | StatusFn => OnRequest status
  | NotFoundFn => OnRequest not_found
  | ErrorFn => OnError error
  end.

(** [routes = {Route.SEARCH: (codex.SEARCH, search), ...}] *)
Definition routes : RouteTable :=
  <[ERROR := (ERROR_path codex, ErrorFn)]>
  (<[STATUS := (STATUS_path codex, StatusFn)]>
  (<[TRAIN := (TRAIN_path codex, TrainFn)]>
  (<[SEARCH := (SEARCH_path codex, SearchFn)]> ∅))).

End Closures.

(** ** [Proxy.__init__] *)

(** The keyword arguments of [__init__] with their defaults; [lr] is the
    float [10e-3]. *)
Record Config : Type := mkConfig {
  host : string;
  port : Z;
  ext_host : string;
  ext_port : Z;
  lr : Q;
  data_dir : string;
  multiplier : Z;
  field : option string
}.

Definition default_config : Config :=
  {| host := "127.0.0.1"; port := 53001;
     ext_host := "127.0.0.1"; ext_port := 54001;
     lr := (1 # 100)%Q; data_dir := "/.cache";
     multiplier := 10; field := None |}.

(** The uninitialised classes handed to [__init__] (their constructors) and
    [StatefulBase.__init__], which [super().__init__( **kwargs )] runs. *)
Record Classes : Type := mkClasses {
  base_init : Dict -> Step unit;
  server_cls : string -> Z -> string -> Z -> Step BaseServer;
  model_cls : Q -> string -> Step BaseModel;
  codex_cls : Z -> option string -> Step BaseCodex;
  db_cls : Step BaseDb
}.

(** [JSON.dumps] of a [str] (with [ensure_ascii], the default): quote and
    backslash are escaped, a character outside [' '..'~'] is written
    [\b], [\f], [\n], [\r], [\t] or [\u00xx].  A [str] is a string of
    code points below 256 here. *)
Definition hex_digit (n : nat) : ascii :=
  match String.get n "0123456789abcdef" with
  | Some c => c
  | None => "0"%char
  end.

Definition json_escape (c : ascii) : string :=
  let n := nat_of_ascii c in
  let backslash := String "092"%char EmptyString in
  if Nat.eqb n 34 then backslash +:+ String "034"%char EmptyString
  else if Nat.eqb n 92 then backslash +:+ backslash
  else if Nat.eqb n 8 then backslash +:+ "b"
  else if Nat.eqb n 12 then backslash +:+ "f"
  else if Nat.eqb n 10 then backslash +:+ "n"
  else if Nat.eqb n 13 then backslash +:+ "r"
  else if Nat.eqb n 9 then backslash +:+ "t"
  else if Nat.leb 32 n && Nat.leb n 126 then String c EmptyString
  else backslash +:+ "u00" +:+
       String (hex_digit (Nat.div n 16))
         (String (hex_digit (Nat.modulo n 16)) EmptyString).

Definition json_str (s : string) : string :=
  let q := String "034"%char EmptyString in
  q +:+ String.concat EmptyString (map json_escape (list_ascii_of_string s)) +:+ q.

(** [JSON.dumps(d, indent=4)] for a dictionary from strings to strings, in
    the order of its items. *)
Definition json_dumps_indent4 (d : list (string * string)) : string :=
  let nl := String "010"%char EmptyString in
  let item (kv : string * string) :=
    "    " +:+ json_str kv.1 +:+ ": " +:+ json_str kv.2 in
  match d with
  | [] => "{}"
  | _ => "{" +:+ nl +:+ String.concat ("," +:+ nl) (map item d) +:+ nl +:+ "}"
  end.

(** The attributes [__init__] sets on the proxy. *)
Record Proxy : Type := mkProxy {
  self_is_ready : Signal;
  self_server : BaseServer
}.

Definition Proxy__init__ (cfg : Config) (cls : Classes) (kwargs : Dict) : M Proxy :=
  do! invoke_now (SuperInit kwargs) (base_init cls kwargs) in
  let! server :=
    invoke_now (NewServer (host cfg) (port cfg) (ext_host cfg) (ext_port cfg))
      (server_cls cls (host cfg) (port cfg) (ext_host cfg) (ext_port cfg)) in
  let! model :=
    invoke_now (NewModel (lr cfg) (data_dir cfg))
      (model_cls cls (lr cfg) (data_dir cfg)) in
  let! codex :=
    invoke_now (NewCodex (multiplier cfg) (field cfg))
      (codex_cls cls (multiplier cfg) (field cfg)) in
  let! db := invoke_now NewDb (db_cls cls) in
  do! invoke_now (CreateApp (routes codex)) (create_app server (routes codex)) in
  do! log (LogInfo (json_dumps_indent4
        [("server", class_name server); ("codex", class_name codex);
         ("model", class_name model); ("db", class_name db)])) in
  ret (mkProxy (is_ready server) server).

(** ** Life cycle *)

Definition Proxy_enter (self : Proxy) : M unit :=
  invoke_now Start (start (self_server self)).

Definition Proxy_exit (self : Proxy) : M unit :=
  do! log (LogCritical "Stopping proxy...") in
  do! invoke_now Exit (exit (self_server self)) in
  invoke_now Join (join (self_server self)).

Definition Proxy__enter__ (self : Proxy) : M unit :=
  do! Proxy_enter self in
  invoke_now Wait (wait (self_is_ready self)).

(** [__exit__(exc_type, exc_val, exc_tb)]: the arguments are ignored and the
    method returns [None]. *)
Definition Proxy__exit__ (self : Proxy) (exc : option Exn) : M unit :=
  Proxy_exit self.

(** [with self: body].  [__exit__] returns [None], so an exception of the
    body is raised again once [__exit__] has returned. *)
Definition with_ {A} (self : Proxy) (body : M A) : M A :=
  fun w =>
    match Proxy__enter__ self w with
    | (Raise e, w1) => (Raise e, w1)
    | (Ok _, w1) =>
        match body w1 with
        | (Ok v, w2) =>
            match Proxy__exit__ self None w2 with
            | (Ok _, w3) => (Ok v, w3)
            | (Raise e, w3) => (Raise e, w3)
            end
        | (Raise e, w2) =>
            match Proxy__exit__ self (Some e) w2 with
            | (Ok _, w3) => (Raise e, w3)
            | (Raise e', w3) => (Raise e', w3)
            end
        end
    end.

End Runtime.

Arguments Ok {Exn A} v.
Arguments Raise {Exn A} e.
Arguments Plain {K A} v.
Arguments Awaitable {K A} k.
Arguments mkCallable {St Request Response Query Choices Ranks Qid Cid Labels
  Path Value Exn A B} self_class name call.
Arguments self_class {St Request Response Query Choices Ranks Qid Cid Labels
  Path Value Exn A B} c.
Arguments name {St Request Response Query Choices Ranks Qid Cid Labels
  Path Value Exn A B} c.
Arguments call {St Request Response Query Choices Ranks Qid Cid Labels
  Path Value Exn A B} c args w.

(** * A concrete deployment

    Small components on which the definitions compute.  Exceptions are
    their names; every call of a component takes one second of the clock,
    except [chain_state], which is a pure function, and [db.lap]; the server's [ask] and [forward] and the model's
    [train] are coroutines, the other methods return at once.  [train_ok]
    and [state_ok] make the model's [train] and [chain_state] raise when
    they are [false]. *)

Module Toy.

Record State : Type := mkState {
  clock : Q;
  samples : list (Q * string * string);
  trained : nat
}.

(** [Response(protocol, status, headers, body)] *)
Record Response : Type := mkResponse {
  protocol : string;
  status_code : Z;
  headers : list (string * string);
  body : string
}.

Abbreviation Request := string (only parsing).
Abbreviation Query := string (only parsing).
Abbreviation Choices := (list string) (only parsing).
Abbreviation Ranks := (list Z) (only parsing).
Abbreviation Qid := nat (only parsing).
Abbreviation Cid := nat (only parsing).
Abbreviation Labels := (list bool) (only parsing).
Abbreviation Path := string (only parsing).
Abbreviation Value := string (only parsing).
Abbreviation Exn := string (only parsing).

Abbreviation Event :=
  (@Event Request Response Query Choices Ranks Qid Cid Labels Path Value Exn).
Abbreviation World :=
  (@World State Request Response Query Choices Ranks Qid Cid Labels Path Value Exn).
Abbreviation M :=
  (@M State Request Response Query Choices Ranks Qid Cid Labels Path Value Exn).
Abbreviation Callable :=
  (@Callable State Request Response Query Choices Ranks Qid Cid Labels Path Value Exn).

#[global] Instance exn : PyExn Exn :=
  {| is_StopIteration := fun e => String.eqb e "StopIteration";
     coroutine_raised_StopIteration :=
       fun _ => "RuntimeError: coroutine raised StopIteration";
     RuntimeError_is_not_StopIteration := fun _ => eq_refl |}.

Definition perf_counter (s : State) : Q := clock s.

Definition tick (s : State) : State :=
  mkState (clock s + 1)%Q (samples s) (trained s).

(** A method that returns [v] at once. *)
Definition returns {A} (v : A) : @Method State Exn A :=
  fun s => (Ok (Plain v), tick s).

(** A coroutine method: the call returns the coroutine, which yields [v]
    when awaited. *)
Definition async_method {A} (v : A) : @Method State Exn A :=
  fun s => (Ok (Awaitable (fun s' => (Ok v, tick s'))), s).

Definition extend (k v : string) (d : gmap string Value) :
    @Step State Exn (gmap string Value) :=
  fun s => (Ok (<[k := v]> d), s).

Definition ok (body : string) : Response := mkResponse "HTTP/1.1" 200 [] body.

Definition server : @BaseServer State Request Response Path Value Exn :=
  {| server_base := mkStateful "ToyServer" (extend "server" "up");
     ask := fun r => async_method (ok r);
     forward := fun r => async_method (ok r);
     create_app := fun _ s => (Ok tt, tick s);
     is_ready := mkSignal (fun s => (Ok tt, tick s));
     start := fun s => (Ok tt, tick s);
     exit := fun s => (Ok tt, tick s);
     join := fun s => (Ok tt, tick s) |}.

Definition codex :
    @BaseCodex State Request Response Query Choices Ranks Qid Cid Path Value Exn :=
  {| codex_base := mkStateful "ToyCodex" (extend "codex" "x10");
     SEARCH_path := "/search";
     TRAIN_path := "/train";
     STATUS_path := "/status";
     ERROR_path := "/error";
     magnify := fun r => returns (r +:+ "&size=100");
     parse := fun r u => returns (r, [body u; "other"]);
     pack := fun r u q c k qid cids => returns (ok (String.concat "," c));
     pluck := fun r => returns (7%nat, [0%nat]);
     ack := fun qid cids => returns (ok "ack");
     catch := fun e => returns (mkResponse "HTTP/1.1" 500 [] e);
     pulse := fun d s =>
       (Ok (ok (if bool_decide (size d = 4%nat) then "all up" else "partial")),
        tick s) |}.

Definition model (train_ok state_ok : bool) :
    @BaseModel State Query Choices Ranks Labels Value Exn :=
  {| model_base :=
       mkStateful "ToyModel"
         (fun d s => if state_ok then extend "model" "idle" d s
                     else (Raise "no state", tick s));
     rank := fun q c => returns (map (fun _ => 1%Z) c);
     train := fun q c l s =>
       if train_ok
       then (Ok (Awaitable (fun s' =>
               (Ok tt, mkState (clock s' + 1)%Q (samples s') (S (trained s'))))), s)
       else (Raise "training failed", tick s) |}.

Definition db : @BaseDb State Query Choices Qid Cid Labels Value Exn :=
  {| db_base := mkStateful "ToyDb" (extend "db" "mem");
     save := fun q c => returns (7%nat, seq 0 (List.length c));
     get := fun qid cids => returns ("q", ["a"; "b"], [true; false]);
     lap := fun ms cls func s =>
       (Ok tt, mkState (clock s) (samples s ++ [(ms, cls, func)]) (trained s)) |}.

(** A db whose [lap] raises. *)
Definition full_db : @BaseDb State Query Choices Qid Cid Labels Value Exn :=
  {| db_base := mkStateful "ToyDb" (extend "db" "mem");
     save := fun q c => returns (7%nat, seq 0 (List.length c));
     get := fun qid cids => returns ("q", ["a"; "b"], [true; false]);
     lap := fun ms cls func s => (Raise "disk full", s) |}.

(** A db whose [chain_state] reports the latency under a key of its own
    once a sample has been recorded. *)
Definition reporting_db : @BaseDb State Query Choices Qid Cid Labels Value Exn :=
  {| db_base :=
       mkStateful "ToyDb" (fun d s =>
         match samples s with
         | [] => (Ok (<["db" := "mem"]> d), s)
         | _ => (Ok (<["latency" := "sampled"]> (<["db" := "mem"]> d)), s)
         end);
     save := fun q c => returns (7%nat, seq 0 (List.length c));
     get := fun qid cids => returns ("q", ["a"; "b"], [true; false]);
     lap := lap db |}.

(** A method that raises [StopIteration] when called. *)
Definition exhausted : Callable unit unit :=
  mkCallable (Some "ToyCodex") "next"
    (fun _ => raise "StopIteration").

Definition classes (train_ok state_ok : bool) :
    @Classes State Request Response Query Choices Ranks Qid Cid Labels Path Value Exn :=
  {| base_init := fun _ s => (Ok tt, s);
     server_cls := fun _ _ _ _ s => (Ok server, s);
     model_cls := fun _ _ s => (Ok (model train_ok state_ok), s);
     codex_cls := fun _ _ s => (Ok codex, s);
     db_cls := fun s => (Ok db, s) |}.

Definition s0 : State := mkState 0 [] 0.
Definition w0 : World := mkWorld s0 [].

Definition proxy : @Proxy State Request Response Path Value Exn :=
  mkProxy (is_ready server) server.

(** A coroutine function that raises when awaited. *)
Definition boom : Callable unit unit :=
  async_def "boom" (fun _ => raise "boom").

(** The world after one [status] call on [w0]. *)
Definition w1 : World :=
  (status perf_counter "Proxy" server (model true true) codex db "/status" w0).2.

(** A server whose [start], [is_ready.wait], [exit] or [ask] raises when the
    flag is [false]. *)
Definition faulty_server (start_ok wait_ok exit_ok ask_ok : bool) :
    @BaseServer State Request Response Path Value Exn :=
  {| server_base := mkStateful "ToyServer" (extend "server" "up");
     ask := fun r s =>
       if ask_ok then async_method (ok r) s else (Raise "upstream down", tick s);
     forward := fun r => async_method (ok r);
     create_app := fun _ s => (Ok tt, tick s);
     is_ready := mkSignal (fun s =>
       if wait_ok then (Ok tt, tick s) else (Raise "interrupted", tick s));
     start := fun s =>
       if start_ok then (Ok tt, tick s) else (Raise "port in use", tick s);
     exit := fun s =>
       if exit_ok then (Ok tt, tick s) else (Raise "not running", tick s);
     join := fun s => (Ok tt, tick s) |}.

(** A proxy around such a server. *)
Definition faulty_proxy (start_ok wait_ok exit_ok : bool) :
    @Proxy State Request Response Path Value Exn :=
  mkProxy (is_ready (faulty_server start_ok wait_ok exit_ok true))
          (faulty_server start_ok wait_ok exit_ok true).

(** Classes whose codex cannot be built. *)
Definition faulty_classes :
    @Classes State Request Response Query Choices Ranks Qid Cid Labels Path Value Exn :=
  {| base_init := fun _ s => (Ok tt, s);
     server_cls := fun _ _ _ _ s => (Ok server, s);
     model_cls := fun _ _ s => (Ok (model true true), s);
     codex_cls := fun _ _ s => (Raise "bad multiplier", s);
     db_cls := fun s => (Ok db, s) |}.

End Toy.

(** * Properties *)

Section Properties.

Context {St Request Response Query Choices Ranks Qid Cid Labels
         Path Value Exn : Type} {py_exn : PyExn Exn}.
Variable perf_counter : St -> Q.

Abbreviation EventT :=
  (@Event Request Response Query Choices Ranks Qid Cid Labels Path Value Exn).
Abbreviation WorldT :=
  (@World St Request Response Query Choices Ranks Qid Cid Labels Path Value Exn).
Abbreviation MT :=
  (@M St Request Response Query Choices Ranks Qid Cid Labels Path Value Exn).
Abbreviation CallableT :=
  (@Callable St Request Response Query Choices Ranks Qid Cid Labels Path Value Exn).

(** An exception that has left one coroutine leaves the next unchanged. *)
Lemma leave_coroutine_idem (e : Exn) :
  leave_coroutine (leave_coroutine e) = leave_coroutine e.
Proof.
  unfold leave_coroutine.
  destruct (is_StopIteration e) eqn:H.
  - rewrite RuntimeError_is_not_StopIteration. reflexivity.
  - rewrite H. reflexivity.
Qed.

Lemma leave_coroutine_ordinary (e : Exn) :
  is_StopIteration e = false -> leave_coroutine e = e.
Proof. unfold leave_coroutine. intros ->. reflexivity. Qed.

Lemma invoke_now_run {A} (e : EventT) (m : Step A) (s : St) (t : list EventT) :
  invoke_now e m (mkWorld s t) =
  let (r, s') := m s in (r, mkWorld s' (t ++ [e])).
Proof. unfold invoke_now, bind, log, lift. simpl. reflexivity. Qed.

Section Tracking.

Variable self_class_name : string.
Variable db : @BaseDb St Query Choices Qid Cid Labels Value Exn.

Abbreviation track' := (track perf_counter self_class_name db).
Abbreviation lapped' := (lapped perf_counter db).
Abbreviation elapsed_ms' := (elapsed_ms perf_counter).

(** [track] runs the wrapped operation to completion.  If it returned,
    [db.lap] is called with the sample, and the value is handed back once
    [db.lap] has returned; an exception of the operation or of [db.lap]
    leaves the wrapper's coroutine. *)
Lemma track_unfold {A B} (f : CallableT A B) (args : A) (w : WorldT) :
  track' f args w =
  match settle f args w with
  | (Ok v, w') =>
      let cls := (ident self_class_name f).1 in
      let ms := elapsed_ms' (st w) (st w') in
      match lap db ms cls (name f) (st w') with
      | (Ok _, s'') => (Ok v, mkWorld s'' (trace w' ++ [Lap ms cls (name f)]))
      | (Raise e, s'') =>
          (Raise (leave_coroutine e),
           mkWorld s'' (trace w' ++ [Lap ms cls (name f)]))
      end
  | (Raise e, w') => (Raise (leave_coroutine e), w')
  end.
Proof.
  unfold track, coroutine, settle, bind, now, db_lap. simpl.
  destruct (call f args w) as [[res|e] w1]; [|reflexivity].
  destruct (await_if_awaitable res w1) as [[v|e] [s2 t2]]; [|reflexivity].
  rewrite invoke_now_run. simpl. unfold elapsed_ms.
  destruct (lap db _ _ _ s2) as [[[]|e] s3]; reflexivity.
Qed.

Lemma settle_plain {A B} (f : CallableT A B) args w v w' :
  call f args w = (Ok (Plain v), w') -> settle f args w = (Ok v, w').
Proof. intros H. unfold settle, bind. rewrite H. reflexivity. Qed.

Lemma settle_awaitable {A B} (f : CallableT A B) args w (k : MT B) w1 :
  call f args w = (Ok (Awaitable k), w1) -> settle f args w = k w1.
Proof. intros H. unfold settle, bind. rewrite H. reflexivity. Qed.

Lemma settle_raise {A B} (f : CallableT A B) args w e w' :
  call f args w = (Raise e, w') -> settle f args w = (Raise e, w').
Proof. intros H. unfold settle, bind. rewrite H. reflexivity. Qed.

Lemma elapsed_ms_nonneg (s s' : St) :
  (perf_counter s <= perf_counter s')%Q -> (0 <= elapsed_ms' s s')%Q.
Proof. unfold elapsed_ms. intros H. nra. Qed.

(** A bound method of a component run to completion. *)
Lemma settle_bound {A B} (self : StatefulBase) nm (ev : A -> EventT)
    (m : A -> Method B) (a : A) (s : St) (t : list EventT) :
  settle (bound self nm ev m) a (mkWorld s t) =
  let (r, s') := complete (m a) s in (r, mkWorld s' (t ++ [ev a])).
Proof.
  unfold settle, bound, invoke, bind, log, lift, complete, ret. simpl.
  destruct (m a s) as [[[v|k]|e] s1]; simpl; try reflexivity.
Qed.

(** A tracked bound method of a component: the method raises, or returns
    and [db.lap] raises, or both return. *)
Lemma track_bound_cases {A B} (self : StatefulBase) nm (ev : A -> EventT)
    (m : A -> Method B) a s t :
  track' (bound self nm ev m) a (mkWorld s t) =
  match complete (m a) s with
  | (Ok v, s') =>
      match lapped' (class_name self) nm s s' with
      | (Ok _, s'') =>
          (Ok v, mkWorld s''
                   (t ++ [ev a; Lap (elapsed_ms' s s') (class_name self) nm]))
      | (Raise e, s'') =>
          (Raise (leave_coroutine e),
           mkWorld s''
             (t ++ [ev a; Lap (elapsed_ms' s s') (class_name self) nm]))
      end
  | (Raise e, s') => (Raise (leave_coroutine e), mkWorld s' (t ++ [ev a]))
  end.
Proof.
  rewrite track_unfold, settle_bound.
  destruct (complete (m a) s) as [[v|e] s']; [|reflexivity].
  unfold lapped. simpl.
  destruct (lap db _ _ _ s') as [[[]|e] s'']; rewrite <- app_assoc; reflexivity.
Qed.

(** A closure [async def] of the proxy under [@track]. *)
Lemma track_async_def {A B} nm (body : A -> MT B) a w :
  track' (async_def nm body) a w =
  match body a w with
  | (Ok v, w') =>
      let ms := elapsed_ms' (st w) (st w') in
      match lap db ms self_class_name nm (st w') with
      | (Ok _, s'') =>
          (Ok v, mkWorld s'' (trace w' ++ [Lap ms self_class_name nm]))
      | (Raise e, s'') =>
          (Raise (leave_coroutine e),
           mkWorld s'' (trace w' ++ [Lap ms self_class_name nm]))
      end
  | (Raise e, w') => (Raise (leave_coroutine e), w')
  end.
Proof.
  rewrite track_unfold. unfold settle, async_def, bind, ret, coroutine. simpl.
  destruct (body a w) as [[v|e] w']; [reflexivity|].
  rewrite leave_coroutine_idem. reflexivity.
Qed.

(** C5, as amended: if [f( *args )] returns [v] without raising — at once,
    or as an awaitable that yields [v] when awaited — then the tracked
    wrapper of [f] on the same arguments calls [db.lap] with
    [((stop - start) * 1000, cls, f.__name__)], where [start] and [stop] are
    the clock readings before the call and after its completion; it returns
    exactly [v] when [db.lap] returns, and when [db.lap] raises the wrapper
    raises and [v] is lost. *)
Theorem track_returns_result {A B} (f : CallableT A B) (args : A) (w : WorldT) (v : B) :
  let cls := match self_class f with Some c => c | None => self_class_name end in
  let forwards_and_returns (w' : WorldT) :=
    let ms := ((perf_counter (st w') - perf_counter (st w)) * 1000)%Q in
    let t' := trace w' ++ [Lap ms cls (name f)] in
    trace (track' f args w).2 = t' /\
    (forall s'',
       lap db ms cls (name f) (st w') = (Ok tt, s'') ->
       track' f args w = (Ok v, mkWorld s'' t')) /\
    (forall e s'',
       lap db ms cls (name f) (st w') = (Raise e, s'') ->
       track' f args w = (Raise (leave_coroutine e), mkWorld s'' t')) in
  (forall w',
     call f args w = (Ok (Plain v), w') -> forwards_and_returns w') /\
  (forall (k : MT B) w1 w',
     call f args w = (Ok (Awaitable k), w1) ->
     k w1 = (Ok v, w') -> forwards_and_returns w').
Proof.
  intros cls P.
  assert (H : forall w', settle f args w = (Ok v, w') -> P w').
  { intros w' Hrun. unfold P. rewrite track_unfold, Hrun. simpl.
    fold cls. unfold elapsed_ms.
    destruct (lap db _ cls (name f) (st w')) as [[[]|e] s3]; simpl.
    - split; [reflexivity|]. split.
      + intros s'' [= <-]. reflexivity.
      + intros e s'' [=].
    - split; [reflexivity|]. split.
      + intros s'' [=].
      + intros e' s'' [= <- <-]. reflexivity. }
  split.
  - intros w' Hcall. apply H. apply settle_plain. exact Hcall.
  - intros k w1 w' Hcall Hk. apply H.
    rewrite (settle_awaitable _ _ _ _ _ Hcall). exact Hk.
Qed.

(** C6, as amended: if [f( *args )] raises [e] — at the call, or when the
    awaitable it returned is awaited — the tracked wrapper of [f] raises [e]
    itself, in the state and with the log in which [f] raised it, unless
    [e] is a [StopIteration]: that one leaves the wrapper, a coroutine, as
    the [RuntimeError] Python makes of it.  No other exception is caught or
    replaced. *)
Theorem track_propagates_error {A B} (f : CallableT A B) (args : A) (w : WorldT) (e : Exn) :
  let e' := if is_StopIteration e then coroutine_raised_StopIteration e else e in
  (forall w',
     call f args w = (Raise e, w') ->
     track' f args w = (Raise e', w')) /\
  (forall (k : MT B) w1 w',
     call f args w = (Ok (Awaitable k), w1) ->
     k w1 = (Raise e, w') ->
     track' f args w = (Raise e', w')).
Proof.
  split.
  - intros w' Hcall. rewrite track_unfold.
    rewrite (settle_raise _ _ _ _ _ Hcall). reflexivity.
  - intros k w1 w' Hcall Hk. rewrite track_unfold.
    rewrite (settle_awaitable _ _ _ _ _ Hcall), Hk. reflexivity.
Qed.

(** C1, as amended: a tracked call whose wrapped operation returns hands
    exactly one sample [(ms, cls, f.__name__)] to [db.lap], after the
    operation has completed, with [ms = (stop - start) * 1000] — which is
    not negative, [time.perf_counter] being monotonic — and returns the
    value once [db.lap] has returned; a tracked call whose wrapped
    operation raises hands no sample to [db.lap] and raises that exception
    (a [StopIteration] as the [RuntimeError] of its coroutine). *)
Theorem track_samples_returns_only {A B} (f : CallableT A B) (args : A) (w : WorldT) :
  let cls := match self_class f with Some c => c | None => self_class_name end in
  (forall v w',
     settle f args w = (Ok v, w') ->
     let ms := ((perf_counter (st w') - perf_counter (st w)) * 1000)%Q in
     trace (track' f args w).2 = trace w' ++ [Lap ms cls (name f)] /\
     ((perf_counter (st w) <= perf_counter (st w'))%Q -> (0 <= ms)%Q) /\
     (forall s'',
        lap db ms cls (name f) (st w') = (Ok tt, s'') ->
        track' f args w =
        (Ok v, mkWorld s'' (trace w' ++ [Lap ms cls (name f)])))) /\
  (forall e w',
     settle f args w = (Raise e, w') ->
     track' f args w = (Raise (leave_coroutine e), w')).
Proof.
  intros cls. split.
  - intros v w' Hrun ms. rewrite track_unfold, Hrun. simpl.
    fold cls. unfold elapsed_ms. fold ms.
    split; [|split].
    + destruct (lap db ms cls (name f) (st w')) as [[[]|e] s3]; reflexivity.
    + intros Hclock. apply (elapsed_ms_nonneg _ _ Hclock).
    + intros s'' ->. reflexivity.
  - intros e w' Hrun. rewrite track_unfold, Hrun. reflexivity.
Qed.

End Tracking.

Section Pipelines.

Variable self_class_name : string.
Variable server : @BaseServer St Request Response Path Value Exn.
Variable model : @BaseModel St Query Choices Ranks Labels Value Exn.
Variable codex : @BaseCodex St Request Response Query Choices Ranks Qid Cid Path Value Exn.
Variable db : @BaseDb St Query Choices Qid Cid Labels Value Exn.

Abbreviation lapped_ := (lapped perf_counter db).
Abbreviation elapsed_ms_ := (elapsed_ms perf_counter).
Abbreviation search' := (search perf_counter self_class_name server model codex db).
Abbreviation train' := (train_ perf_counter self_class_name model codex db).
Abbreviation status' := (status perf_counter self_class_name server model codex db).

(** One tracked call of a bound method: the method returns ([H]) and so
    does [db.lap] ([L]). *)
Ltac tracked_step H L :=
  rewrite track_bound_cases; cbv beta iota; simpl fst; simpl snd;
  rewrite H; cbv beta iota; rewrite L; cbv beta iota.

(** One tracked call of a bound method that raises. *)
Ltac tracked_raise H :=
  rewrite track_bound_cases; cbv beta iota; simpl fst; simpl snd;
  rewrite H; cbv beta iota.

(** C4: on the success path — the six calls return and every sample is
    recorded — [search] makes six tracked calls, in this order and with
    these arguments: [codex.magnify(_1)], [server.ask(_2)],
    [codex.parse(_2, _3)], [model.rank( *_4 )], [db.save( *_4 )],
    [codex.pack(_1, _3, *_4, _5, *_6)], each followed by its own sample, and
    returns the response of [pack]; the sample of the pipeline as a whole
    comes last. *)
Theorem search_success_path
    (r1 r2 : Request) (r3 r7 : Response) (q : Query) (c : Choices) (k : Ranks)
    (qid : Qid) (cids : list Cid)
    (s0 s1 s1' s2 s2' s3 s3' s4 s4' s5 s5' s6 s6' s7 : St) (t0 : list EventT) :
  complete (magnify codex r1) s0 = (Ok r2, s1) ->
  lapped_ (class_name codex) "magnify" s0 s1 = (Ok tt, s1') ->
  complete (ask server r2) s1' = (Ok r3, s2) ->
  lapped_ (class_name server) "ask" s1' s2 = (Ok tt, s2') ->
  complete (parse codex r2 r3) s2' = (Ok (q, c), s3) ->
  lapped_ (class_name codex) "parse" s2' s3 = (Ok tt, s3') ->
  complete (rank model q c) s3' = (Ok k, s4) ->
  lapped_ (class_name model) "rank" s3' s4 = (Ok tt, s4') ->
  complete (save db q c) s4' = (Ok (qid, cids), s5) ->
  lapped_ (class_name db) "save" s4' s5 = (Ok tt, s5') ->
  complete (pack codex r1 r3 q c k qid cids) s5' = (Ok r7, s6) ->
  lapped_ (class_name codex) "pack" s5' s6 = (Ok tt, s6') ->
  lapped_ self_class_name "search" s0 s6' = (Ok tt, s7) ->
  search' r1 (mkWorld s0 t0) =
  (Ok r7,
   mkWorld s7
     (t0 ++ [Magnify r1; Lap (elapsed_ms_ s0 s1) (class_name codex) "magnify";
             Ask r2; Lap (elapsed_ms_ s1' s2) (class_name server) "ask";
             Parse r2 r3; Lap (elapsed_ms_ s2' s3) (class_name codex) "parse";
             Rank q c; Lap (elapsed_ms_ s3' s4) (class_name model) "rank";
             Save q c; Lap (elapsed_ms_ s4' s5) (class_name db) "save";
             Pack r1 r3 q c k qid cids;
             Lap (elapsed_ms_ s5' s6) (class_name codex) "pack";
             Lap (elapsed_ms_ s0 s6') self_class_name "search"])).
Proof.
  intros H1 L1 H2 L2 H3 L3 H4 L4 H5 L5 H6 L6 L7.
  unfold search, search_fn. rewrite track_async_def.
  unfold bind, codex_magnify, server_ask, codex_parse, model_rank, db_save,
    codex_pack.
  tracked_step H1 L1. tracked_step H2 L2. tracked_step H3 L3.
  tracked_step H4 L4. tracked_step H5 L5. tracked_step H6 L6.
  unfold ret. simpl. unfold lapped in L7. rewrite L7.
  repeat rewrite <- app_assoc. reflexivity.
Qed.

(** C3, as amended: once [codex.pluck] and [db.get] have returned (and
    their samples are recorded), if [model.train(Query, Choices, Labels)]
    returns, its value is dropped and the pipeline returns the response of
    [codex.ack(Qid, Cids)], provided [codex.ack] returns and the samples
    are recorded; if [model.train] raises, [codex.ack] is not called and
    the pipeline raises that exception (a [StopIteration] as the
    [RuntimeError] of its coroutine). *)
Theorem train_acks_after_training_returns
    (r1 : Request) (qid : Qid) (cids : list Cid) (q : Query) (c : Choices)
    (l : Labels) (s0 s1 s1' s2 s2' : St) (t0 : list EventT) :
  complete (pluck codex r1) s0 = (Ok (qid, cids), s1) ->
  lapped_ (class_name codex) "pluck" s0 s1 = (Ok tt, s1') ->
  complete (get db qid cids) s1' = (Ok (q, c, l), s2) ->
  lapped_ (class_name db) "get" s1' s2 = (Ok tt, s2') ->
  (forall (u : unit) (r4 : Response) (s3 s3' s4 s4' s5 : St),
     complete (train model q c l) s2' = (Ok u, s3) ->
     lapped_ (class_name model) "train" s2' s3 = (Ok tt, s3') ->
     complete (ack codex qid cids) s3' = (Ok r4, s4) ->
     lapped_ (class_name codex) "ack" s3' s4 = (Ok tt, s4') ->
     lapped_ self_class_name "train" s0 s4' = (Ok tt, s5) ->
     train' r1 (mkWorld s0 t0) =
     (Ok r4,
      mkWorld s5
        (t0 ++ [Pluck r1; Lap (elapsed_ms_ s0 s1) (class_name codex) "pluck";
                Get qid cids; Lap (elapsed_ms_ s1' s2) (class_name db) "get";
                Train q c l; Lap (elapsed_ms_ s2' s3) (class_name model) "train";
                Ack qid cids; Lap (elapsed_ms_ s3' s4) (class_name codex) "ack";
                Lap (elapsed_ms_ s0 s4') self_class_name "train"]))) /\
  (forall (e : Exn) (s3 : St),
     complete (train model q c l) s2' = (Raise e, s3) ->
     train' r1 (mkWorld s0 t0) =
     (Raise (if is_StopIteration e then coroutine_raised_StopIteration e else e),
      mkWorld s3
        (t0 ++ [Pluck r1; Lap (elapsed_ms_ s0 s1) (class_name codex) "pluck";
                Get qid cids; Lap (elapsed_ms_ s1' s2) (class_name db) "get";
                Train q c l]))).
Proof.
  intros H1 L1 H2 L2. split.
  - intros u r4 s3 s3' s4 s4' s5 H3 L3 H4 L4 L5.
    unfold train_, train_fn. rewrite track_async_def.
    unfold bind, codex_pluck, db_get, model_train, codex_ack.
    tracked_step H1 L1. tracked_step H2 L2. tracked_step H3 L3.
    tracked_step H4 L4.
    unfold ret. simpl. unfold lapped in L5. rewrite L5.
    repeat rewrite <- app_assoc. reflexivity.
  - intros e s3 H3.
    unfold train_, train_fn. rewrite track_async_def.
    unfold bind, codex_pluck, db_get, model_train, codex_ack.
    tracked_step H1 L1. tracked_step H2 L2. tracked_raise H3.
    rewrite leave_coroutine_idem. repeat rewrite <- app_assoc. reflexivity.
Qed.

(** The calls and the outcome of the closure [status] before [@track]: one
    of its five calls raised, or all returned. *)
Lemma status_fn_cases (r : Request) (s0 : St) (t0 : list EventT) :
  (exists e w' t,
     settle (status_fn server model codex db) r (mkWorld s0 t0)
       = (Raise (leave_coroutine e), w') /\
     trace w' = t0 ++ ServerChainState ∅ :: t /\
     laps t = []) \/
  (exists d1 s1 d2 s2 d3 s3 d4 s4 resp s5,
     chain_state server ∅ s0 = (Ok d1, s1) /\
     chain_state codex d1 s1 = (Ok d2, s2) /\
     chain_state model d2 s2 = (Ok d3, s3) /\
     chain_state db d3 s3 = (Ok d4, s4) /\
     pulse codex d4 s4 = (Ok resp, s5) /\
     settle (status_fn server model codex db) r (mkWorld s0 t0) =
     (Ok resp,
      mkWorld s5
        (t0 ++ [ServerChainState ∅; CodexChainState d1; ModelChainState d2;
                DbChainState d3; Pulse d4]))).
Proof.
  unfold settle, status_fn, async_def, bind, ret, coroutine. simpl.
  unfold bind.
  rewrite invoke_now_run.
  destruct (chain_state server ∅ s0) as [[d1|e] s1] eqn:E1; cycle 1.
  { left. exists e, (mkWorld s1 (t0 ++ [ServerChainState ∅])), [].
    repeat split. }
  rewrite invoke_now_run.
  destruct (chain_state codex d1 s1) as [[d2|e] s2] eqn:E2; cycle 1.
  { left. eexists e, _, [CodexChainState d1]. split; [reflexivity|].
    simpl. rewrite <- app_assoc. split; reflexivity. }
  rewrite invoke_now_run.
  destruct (chain_state model d2 s2) as [[d3|e] s3] eqn:E3; cycle 1.
  { left. eexists e, _, [CodexChainState d1; ModelChainState d2].
    split; [reflexivity|].
    simpl. repeat rewrite <- app_assoc. split; reflexivity. }
  rewrite invoke_now_run.
  destruct (chain_state db d3 s3) as [[d4|e] s4] eqn:E4; cycle 1.
  { left. eexists e, _, [CodexChainState d1; ModelChainState d2; DbChainState d3].
    split; [reflexivity|].
    simpl. repeat rewrite <- app_assoc. split; reflexivity. }
  rewrite invoke_now_run.
  destruct (pulse codex d4 s4) as [[resp|e] s5] eqn:E5; cycle 1.
  { left. eexists e, _, [CodexChainState d1; ModelChainState d2; DbChainState d3;
                          Pulse d4].
    split; [reflexivity|].
    simpl. repeat rewrite <- app_assoc. split; reflexivity. }
  right. exists d1, s1, d2, s2, d3, s3, d4, s4, resp, s5.
  repeat (split; [first [assumption | reflexivity]|]).
  simpl. repeat rewrite <- app_assoc. reflexivity.
Qed.

(** The ways a [status] call can end: one of its five calls raised; or all
    returned and the sample was handed to [db.lap], which returned or
    raised. *)
Lemma status_cases (r : Request) (s0 : St) (t0 : list EventT) :
  (exists e w' t,
     settle (status_fn server model codex db) r (mkWorld s0 t0)
       = (Raise (leave_coroutine e), w') /\
     status' r (mkWorld s0 t0) = (Raise (leave_coroutine e), w') /\
     trace w' = t0 ++ ServerChainState ∅ :: t /\
     laps t = []) \/
  (exists d1 s1 d2 s2 d3 s3 d4 s4 resp s5,
     chain_state server ∅ s0 = (Ok d1, s1) /\
     chain_state codex d1 s1 = (Ok d2, s2) /\
     chain_state model d2 s2 = (Ok d3, s3) /\
     chain_state db d3 s3 = (Ok d4, s4) /\
     pulse codex d4 s4 = (Ok resp, s5) /\
     (exists w5, settle (status_fn server model codex db) r (mkWorld s0 t0)
                 = (Ok resp, w5)) /\
     status' r (mkWorld s0 t0) =
     let t := t0 ++ [ServerChainState ∅; CodexChainState d1; ModelChainState d2;
                     DbChainState d3; Pulse d4;
                     Lap (elapsed_ms_ s0 s5) self_class_name "status"] in
     match lapped_ self_class_name "status" s0 s5 with
     | (Ok _, s6) => (Ok resp, mkWorld s6 t)
     | (Raise e, s6) => (Raise (leave_coroutine e), mkWorld s6 t)
     end).
Proof.
  unfold status. rewrite track_unfold.
  destruct (status_fn_cases r s0 t0)
    as [(e & w' & t & Hr & Ht & Hl)
       |(d1 & s1 & d2 & s2 & d3 & s3 & d4 & s4 & resp & s5 &
         F1 & F2 & F3 & F4 & F5 & Hr)]; rewrite Hr.
  - left. exists e, w', t. rewrite leave_coroutine_idem. auto.
  - right. exists d1, s1, d2, s2, d3, s3, d4, s4, resp, s5.
    repeat (split; [assumption|]). split; [eexists; reflexivity|].
    unfold lapped. simpl.
    destruct (lap db _ _ _ s5) as [[[]|e] s6];
      repeat rewrite <- app_assoc; reflexivity.
Qed.

Lemma status_run (r : Request) (s0 s1 s2 s3 s4 s5 s6 : St) (t0 : list EventT)
    (d1 d2 d3 d4 : gmap string Value) (resp : Response) :
  chain_state server ∅ s0 = (Ok d1, s1) ->
  chain_state codex d1 s1 = (Ok d2, s2) ->
  chain_state model d2 s2 = (Ok d3, s3) ->
  chain_state db d3 s3 = (Ok d4, s4) ->
  pulse codex d4 s4 = (Ok resp, s5) ->
  lapped_ self_class_name "status" s0 s5 = (Ok tt, s6) ->
  status' r (mkWorld s0 t0) =
  (Ok resp,
   mkWorld s6
     (t0 ++ [ServerChainState ∅; CodexChainState d1; ModelChainState d2;
             DbChainState d3; Pulse d4;
             Lap (elapsed_ms_ s0 s5) self_class_name "status"])).
Proof.
  intros E1 E2 E3 E4 E5 L.
  unfold status, status_fn. rewrite track_async_def. unfold bind.
  rewrite invoke_now_run, E1, invoke_now_run, E2, invoke_now_run, E3,
    invoke_now_run, E4, invoke_now_run, E5.
  unfold ret. simpl. unfold lapped in L. rewrite L.
  repeat rewrite <- app_assoc. reflexivity.
Qed.

(** What a [status] call logs first, and when it returns. *)
Lemma status_chains_in_order_aux (r : Request) (s0 : St) (t0 : list EventT) :
  (exists t,
     trace (status' r (mkWorld s0 t0)).2 = t0 ++ ServerChainState ∅ :: t) /\
  (forall (resp : Response) (w' : WorldT),
     status' r (mkWorld s0 t0) = (Ok resp, w') <->
     exists d1 s1 d2 s2 d3 s3 d4 s4 s5 s6,
       chain_state server ∅ s0 = (Ok d1, s1) /\
       chain_state codex d1 s1 = (Ok d2, s2) /\
       chain_state model d2 s2 = (Ok d3, s3) /\
       chain_state db d3 s3 = (Ok d4, s4) /\
       pulse codex d4 s4 = (Ok resp, s5) /\
       lapped_ self_class_name "status" s0 s5 = (Ok tt, s6) /\
       w' = mkWorld s6
              (t0 ++ [ServerChainState ∅; CodexChainState d1;
                      ModelChainState d2; DbChainState d3; Pulse d4;
                      Lap (elapsed_ms_ s0 s5) self_class_name "status"])).
Proof.
  split.
  - destruct (status_cases r s0 t0)
      as [(e & w1 & t & _ & Hr & Ht & _)
         |(d1 & s1 & d2 & s2 & d3 & s3 & d4 & s4 & resp1 & s5 &
           _ & _ & _ & _ & _ & _ & Hr)]; rewrite Hr; clear Hr.
    + exists t. exact Ht.
    + cbv zeta.
      destruct (lapped_ self_class_name "status" s0 s5) as [[[]|e] s6];
        simpl; eexists; reflexivity.
  - intros resp w'. split.
    + intros Hrun.
      destruct (status_cases r s0 t0)
        as [(e & w1 & t & _ & Hr & _)
           |(d1 & s1 & d2 & s2 & d3 & s3 & d4 & s4 & resp1 & s5 &
             F1 & F2 & F3 & F4 & F5 & _ & Hr)]; rewrite Hr in Hrun.
      * discriminate.
      * cbv zeta in Hrun.
        destruct (lapped_ self_class_name "status" s0 s5) as [[[]|e] s6] eqn:L;
          [|discriminate].
        injection Hrun as <- <-.
        exists d1, s1, d2, s2, d3, s3, d4, s4, s5, s6.
        repeat (split; [assumption|]). reflexivity.
    + intros (d1 & s1 & d2 & s2 & d3 & s3 & d4 & s4 & s5 & s6 &
              F1 & F2 & F3 & F4 & F5 & L & ->).
      eapply status_run; eassumption.
Qed.

(** C7: a [status] call starts from the empty dictionary, which it hands to
    [server.chain_state]; it returns a response exactly when
    [server.chain_state], [codex.chain_state], [model.chain_state],
    [db.chain_state] — each fed the dictionary returned by the one before,
    in this order — and [codex.pulse] on the last dictionary all return
    (and the sample of the call is recorded), and the response is the one
    [codex.pulse] returned. *)
Theorem status_chains_in_order (r : Request) (s0 : St) (t0 : list EventT) :
  (exists t,
     trace (status' r (mkWorld s0 t0)).2 = t0 ++ ServerChainState ∅ :: t) /\
  (forall (resp : Response) (w' : WorldT),
     status' r (mkWorld s0 t0) = (Ok resp, w') <->
     exists d1 s1 d2 s2 d3 s3 d4 s4 s5 s6,
       chain_state server ∅ s0 = (Ok d1, s1) /\
       chain_state codex d1 s1 = (Ok d2, s2) /\
       chain_state model d2 s2 = (Ok d3, s3) /\
       chain_state db d3 s3 = (Ok d4, s4) /\
       pulse codex d4 s4 = (Ok resp, s5) /\
       lapped_ self_class_name "status" s0 s5 = (Ok tt, s6) /\
       w' = mkWorld s6
              (t0 ++ [ServerChainState ∅; CodexChainState d1;
                      ModelChainState d2; DbChainState d3; Pulse d4;
                      Lap (elapsed_ms_ s0 s5) self_class_name "status"])).
Proof.
  exact (status_chains_in_order_aux r s0 t0).
Qed.

(** C10, as amended: [status] tracks none of its five calls.  A [status]
    call whose five calls return hands exactly one sample to [db.lap], that
    of the pipeline as a whole, tagged with the proxy's own class name and
    ["status"] ([status] has no [__self__]) — so does, in particular, every
    [status] call that returns; a [status] call in which one of the five
    calls raises hands none. *)
Theorem status_tracked_as_a_whole (r : Request) (s0 : St) (t0 : list EventT) :
  ident self_class_name
    (status_fn (St:=St) (Ranks:=Ranks) (Qid:=Qid) (Cid:=Cid) (Labels:=Labels)
       server model codex db)
  = (self_class_name, "status") /\
  exists t,
    trace (status' r (mkWorld s0 t0)).2 = t0 ++ t /\
    match (status' r (mkWorld s0 t0)).1 with
    | Ok _ => exists ms, laps t = [Lap ms self_class_name "status"]
    | Raise _ =>
        laps t = [] \/ exists ms, laps t = [Lap ms self_class_name "status"]
    end /\
    match (settle (status_fn server model codex db) r (mkWorld s0 t0)).1 with
    | Ok _ => exists ms, laps t = [Lap ms self_class_name "status"]
    | Raise _ => laps t = []
    end.
Proof.
  split; [reflexivity|].
  destruct (status_cases r s0 t0)
    as [(e & w' & t & Hs & Hr & Ht & Hl)
       |(d1 & s1 & d2 & s2 & d3 & s3 & d4 & s4 & resp & s5 &
         _ & _ & _ & _ & _ & (w5 & Hs) & Hr)]; rewrite Hr, Hs; simpl.
  - exists (ServerChainState ∅ :: t). split; [exact Ht|].
    split; [left; exact Hl|exact Hl].
  - destruct (lapped_ self_class_name "status" s0 s5) as [[[]|e] s6]; simpl;
      (eexists; split; [reflexivity|]; simpl; split; [|eexists; reflexivity]);
      [eexists; reflexivity|right; eexists; reflexivity].
Qed.

Lemma last_pulse_app (t u : list EventT) :
  last_pulse (t ++ u) =
  match last_pulse u with
  | Some d => Some d
  | None => last_pulse t
  end.
Proof.
  induction t as [|e t IH]; simpl.
  - destruct (last_pulse u); reflexivity.
  - rewrite IH. destruct (last_pulse u); reflexivity.
Qed.

(** C9, as amended: two [status] calls that return, the second started in a
    state related to the first's by [R] — the components differ in
    time-varying fields only, such as the latency samples, to which the
    first call itself adds its own — format dictionaries with the same key
    set provided the keys each [chain_state] adds do not depend on those
    fields; when the four [chain_state] are pure functions the two
    dictionaries are equal. *)
Theorem status_twice_same_keys (R : St -> St -> Prop)
    (r r' : Request) (s s' : St) (t t' : list EventT)
    (resp resp' : Response) (w1 w2 : WorldT) :
  status' r (mkWorld s t) = (Ok resp, w1) ->
  status' r' (mkWorld s' t') = (Ok resp', w2) ->
  exists d d',
    last_pulse (trace w1) = Some d /\
    last_pulse (trace w2) = Some d' /\
    (R s s' ->
     keys_stable R server -> keys_stable R codex ->
     keys_stable R model -> keys_stable R db ->
     dom d = dom d') /\
    (forall g1 g2 g3 g4,
       pure_chain_state server g1 -> pure_chain_state codex g2 ->
       pure_chain_state model g3 -> pure_chain_state db g4 ->
       d = g4 (g3 (g2 (g1 ∅))) /\ d' = d).
Proof.
  intros Hrun Hrun'.
  apply (proj1 (proj2 (status_chains_in_order_aux r s t) resp w1)) in Hrun.
  apply (proj1 (proj2 (status_chains_in_order_aux r' s' t') resp' w2)) in Hrun'.
  destruct Hrun as (d1 & s1 & d2 & s2 & d3 & s3 & d4 & s4 & s5 & s6 &
                    F1 & F2 & F3 & F4 & F5 & _ & ->).
  destruct Hrun' as (d1' & s1' & d2' & s2' & d3' & s3' & d4' & s4' & s5' & s6' &
                     G1 & G2 & G3 & G4 & G5 & _ & ->).
  exists d4, d4'. simpl. rewrite !last_pulse_app. simpl.
  split; [reflexivity|]. split; [reflexivity|]. split.
  - intros HR Kserver Kcodex Kmodel Kdb.
    destruct (Kserver _ _ _ _ _ _ _ _ HR eq_refl F1 G1) as [D1 R1].
    destruct (Kcodex _ _ _ _ _ _ _ _ R1 D1 F2 G2) as [D2 R2].
    destruct (Kmodel _ _ _ _ _ _ _ _ R2 D2 F3 G3) as [D3 R3].
    destruct (Kdb _ _ _ _ _ _ _ _ R3 D3 F4 G4) as [D4 _].
    exact D4.
  - intros g1 g2 g3 g4 P1 P2 P3 P4.
    rewrite P1 in F1, G1. injection F1 as <- <-. injection G1 as <- <-.
    rewrite P2 in F2, G2. injection F2 as <- <-. injection G2 as <- <-.
    rewrite P3 in F3, G3. injection F3 as <- <-. injection G3 as <- <-.
    rewrite P4 in F4, G4. injection F4 as <- <-. injection G4 as <- <-.
    split; reflexivity.
Qed.

End Pipelines.

Section Lifecycle.

Abbreviation ProxyT := (@Proxy St Request Response Path Value Exn).

(** C8: [with self: body] calls [server.start()] and then
    [is_ready.wait()]; the body starts in the state in which [wait]
    returned.  Whether the body returns or raises, [__exit__] then calls
    [server.exit()] and, once it has returned, [server.join()]; the scope
    ends in the state in which [join] returned, with the outcome of the
    body. *)
Theorem scoped_acquisition {A} (self : ProxyT) (body : MT A)
    (s0 s1 s2 s3 s4 : St) (t0 : list EventT) (rb : Res A) (wb : WorldT) :
  start (self_server self) s0 = (Ok tt, s1) ->
  wait (self_is_ready self) s1 = (Ok tt, s2) ->
  body (mkWorld s2 (t0 ++ [Start; Wait])) = (rb, wb) ->
  exit (self_server self) (st wb) = (Ok tt, s3) ->
  join (self_server self) s3 = (Ok tt, s4) ->
  with_ self body (mkWorld s0 t0) =
  (rb, mkWorld s4 (trace wb ++ [LogCritical "Stopping proxy..."; Exit; Join])).
Proof.
  intros Hstart Hwait Hbody Hexit Hjoin.
  assert (Henter : Proxy__enter__ self (mkWorld s0 t0) =
                   (Ok tt, mkWorld s2 (t0 ++ [Start; Wait]))).
  { unfold Proxy__enter__, Proxy_enter, bind.
    rewrite invoke_now_run, Hstart, invoke_now_run, Hwait.
    rewrite <- app_assoc. reflexivity. }
  assert (Hrelease : forall exc, Proxy__exit__ self exc wb =
            (Ok tt, mkWorld s4 (trace wb ++
               [LogCritical "Stopping proxy..."; Exit; Join]))).
  { intros exc. unfold Proxy__exit__, Proxy_exit, bind, log.
    rewrite invoke_now_run. simpl. rewrite Hexit.
    rewrite invoke_now_run, Hjoin. repeat rewrite <- app_assoc. reflexivity. }
  unfold with_. rewrite Henter, Hbody.
  destruct rb as [v|e]; rewrite Hrelease; reflexivity.
Qed.

(** C2 (what [__init__] does): once the four components are built,
    [__init__] calls [server.create_app] once, with the table that binds
    each of [SEARCH], [TRAIN], [STATUS], [ERROR] to the codex's path and the
    tracked closure of that route, and makes no other call on the server;
    the closure [not_found] is in no entry of the table and is handed to
    no call. *)
Theorem Proxy_init_hands_routes_once (self_class_name : string)
    (cfg : Config) (cls : Classes) (kwargs : gmap string Value)
    (server : @BaseServer St Request Response Path Value Exn)
    (model : @BaseModel St Query Choices Ranks Labels Value Exn)
    (codex : @BaseCodex St Request Response Query Choices Ranks Qid Cid Path Value Exn)
    (db : @BaseDb St Query Choices Qid Cid Labels Value Exn)
    (s0 s1 s2 s3 s4 s5 s6 : St) (t0 : list EventT) :
  base_init cls kwargs s0 = (Ok tt, s1) ->
  server_cls cls (host cfg) (port cfg) (ext_host cfg) (ext_port cfg) s1
    = (Ok server, s2) ->
  model_cls cls (lr cfg) (data_dir cfg) s2 = (Ok model, s3) ->
  codex_cls cls (multiplier cfg) (field cfg) s3 = (Ok codex, s4) ->
  db_cls cls s4 = (Ok db, s5) ->
  create_app server (routes codex) s5 = (Ok tt, s6) ->
  Proxy__init__ cfg cls kwargs (mkWorld s0 t0) =
  (Ok (mkProxy (is_ready server) server),
   mkWorld s6
     (t0 ++ [SuperInit kwargs;
             NewServer (host cfg) (port cfg) (ext_host cfg) (ext_port cfg);
             NewModel (lr cfg) (data_dir cfg);
             NewCodex (multiplier cfg) (field cfg);
             NewDb;
             CreateApp (routes codex);
             LogInfo (json_dumps_indent4
               [("server", class_name server); ("codex", class_name codex);
                ("model", class_name model); ("db", class_name db)])])) /\
  routes codex !! SEARCH = Some (SEARCH_path codex, SearchFn) /\
  routes codex !! TRAIN = Some (TRAIN_path codex, TrainFn) /\
  routes codex !! STATUS = Some (STATUS_path codex, StatusFn) /\
  routes codex !! ERROR = Some (ERROR_path codex, ErrorFn) /\
  (forall (k : Route) (p : Path), routes codex !! k <> Some (p, NotFoundFn)) /\
  (let handler_ := handler perf_counter self_class_name server model codex db in
   handler_ SearchFn
     = OnRequest (search perf_counter self_class_name server model codex db) /\
   handler_ TrainFn
     = OnRequest (train_ perf_counter self_class_name model codex db) /\
   handler_ StatusFn
     = OnRequest (status perf_counter self_class_name server model codex db) /\
   handler_ ErrorFn
     = OnError (error perf_counter self_class_name codex db)).
Proof.
  intros H1 H2 H3 H4 H5 H6. split.
  - unfold Proxy__init__, bind.
    rewrite invoke_now_run, H1, invoke_now_run, H2, invoke_now_run, H3,
      invoke_now_run, H4, invoke_now_run, H5, invoke_now_run, H6.
    unfold log, ret. simpl. repeat rewrite <- app_assoc. reflexivity.
  - unfold routes. repeat split; try reflexivity.
    intros k p. destruct k; simplify_map_eq; discriminate.
Qed.

End Lifecycle.

End Properties.

(** * Failure paths and the remaining closures *)

Section Failures.

Context {St Request Response Query Choices Ranks Qid Cid Labels
         Path Value Exn : Type} {py_exn : PyExn Exn}.
Variable perf_counter : St -> Q.
Variable self_class_name : string.
Variable server : @BaseServer St Request Response Path Value Exn.
Variable model : @BaseModel St Query Choices Ranks Labels Value Exn.
Variable codex : @BaseCodex St Request Response Query Choices Ranks Qid Cid Path Value Exn.
Variable db : @BaseDb St Query Choices Qid Cid Labels Value Exn.

Abbreviation EventF :=
  (@Event Request Response Query Choices Ranks Qid Cid Labels Path Value Exn).
Abbreviation WorldF :=
  (@World St Request Response Query Choices Ranks Qid Cid Labels Path Value Exn).
Abbreviation MF :=
  (@M St Request Response Query Choices Ranks Qid Cid Labels Path Value Exn).
Abbreviation lappedF := (lapped perf_counter db).
Abbreviation elapsedF := (elapsed_ms perf_counter).
Abbreviation trackF := (track perf_counter self_class_name db).

(** X1: [not_found] hands the request to [server.forward] and, once the
    sample of [forward] and its own are recorded, returns the response of
    [forward] as it is; when [forward] raises, [not_found] raises that
    exception (a [StopIteration] as the [RuntimeError] of its coroutine)
    and no sample is recorded; when [db.lap] raises, [not_found] raises
    that exception. *)
Theorem not_found_forwards (r : Request) (s0 : St) (t0 : list EventF) :
  not_found perf_counter self_class_name server db r (mkWorld s0 t0) =
  match complete (forward server r) s0 with
  | (Raise e, s1) => (Raise (leave_coroutine e), mkWorld s1 (t0 ++ [Forward r]))
  | (Ok resp, s1) =>
      let t1 := t0 ++ [Forward r;
                       Lap (elapsedF s0 s1) (class_name server) "forward"] in
      match lappedF (class_name server) "forward" s0 s1 with
      | (Raise e, s1') => (Raise (leave_coroutine e), mkWorld s1' t1)
      | (Ok _, s1') =>
          let t2 := t1 ++ [Lap (elapsedF s0 s1') self_class_name "not_found"] in
          match lappedF self_class_name "not_found" s0 s1' with
          | (Raise e, s2) => (Raise (leave_coroutine e), mkWorld s2 t2)
          | (Ok _, s2) => (Ok resp, mkWorld s2 t2)
          end
      end
  end.
Proof.
  unfold not_found, not_found_fn. rewrite track_async_def.
  unfold bind, server_forward. rewrite track_bound_cases.
  destruct (complete (forward server r) s0) as [[resp|e] s1];
    [|rewrite leave_coroutine_idem; reflexivity].
  cbv zeta.
  destruct (lappedF (class_name server) "forward" s0 s1) as [[[]|e] s1'];
    [|rewrite leave_coroutine_idem; reflexivity].
  unfold ret, lapped. simpl.
  destruct (lap db _ _ _ s1') as [[[]|e] s2]; reflexivity.
Qed.

(** X2: [error] hands the exception to [codex.catch] and, once the sample
    of [catch] and its own are recorded, returns the response of [catch];
    when [catch] itself raises, [error] raises that exception (a
    [StopIteration] as the [RuntimeError] of its coroutine): nothing
    recovers from a failing [catch]; when [db.lap] raises, [error] raises
    that exception. *)
Theorem error_catches (x : Exn) (s0 : St) (t0 : list EventF) :
  error perf_counter self_class_name codex db x (mkWorld s0 t0) =
  match complete (catch codex x) s0 with
  | (Raise e, s1) => (Raise (leave_coroutine e), mkWorld s1 (t0 ++ [Catch x]))
  | (Ok resp, s1) =>
      let t1 := t0 ++ [Catch x;
                       Lap (elapsedF s0 s1) (class_name codex) "catch"] in
      match lappedF (class_name codex) "catch" s0 s1 with
      | (Raise e, s1') => (Raise (leave_coroutine e), mkWorld s1' t1)
      | (Ok _, s1') =>
          let t2 := t1 ++ [Lap (elapsedF s0 s1') self_class_name "error"] in
          match lappedF self_class_name "error" s0 s1' with
          | (Raise e, s2) => (Raise (leave_coroutine e), mkWorld s2 t2)
          | (Ok _, s2) => (Ok resp, mkWorld s2 t2)
          end
      end
  end.
Proof.
  unfold error, error_fn. rewrite track_async_def.
  unfold bind, codex_catch. rewrite track_bound_cases.
  destruct (complete (catch codex x) s0) as [[resp|e] s1];
    [|rewrite leave_coroutine_idem; reflexivity].
  cbv zeta.
  destruct (lappedF (class_name codex) "catch" s0 s1) as [[[]|e] s1'];
    [|rewrite leave_coroutine_idem; reflexivity].
  unfold ret, lapped. simpl.
  destruct (lap db _ _ _ s1') as [[[]|e] s2]; reflexivity.
Qed.

Abbreviation searchF := (search perf_counter self_class_name server model codex db).
Abbreviation trainF := (train_ perf_counter self_class_name model codex db).








End Failures.

Section Construction.

Context {St Request Response Query Choices Ranks Qid Cid Labels
         Path Value Exn : Type}.

Abbreviation EventC :=
  (@Event Request Response Query Choices Ranks Qid Cid Labels Path Value Exn).
Abbreviation WorldC :=
  (@World St Request Response Query Choices Ranks Qid Cid Labels Path Value Exn).
Abbreviation MC :=
  (@M St Request Response Query Choices Ranks Qid Cid Labels Path Value Exn).
Abbreviation ClassesC :=
  (@Classes St Request Response Query Choices Ranks Qid Cid Labels Path Value Exn).
Abbreviation ProxyC := (@Proxy St Request Response Path Value Exn).

Ltac init_failed e :=
  left; eexists e, _, _; split; [reflexivity|];
  split; [simpl; repeat rewrite <- app_assoc; reflexivity|];
  simpl;
  split; [eexists; reflexivity|];
  let H := fresh in
  intros ? H; simpl in H;
  repeat (destruct H as [H|H]; [discriminate H|]); exact H.

(** The two ways [__init__] can end. *)
Lemma Proxy_init_cases (cfg : Config) (cls : ClassesC)
    (kwargs : gmap string Value) (s0 : St) (t0 : list EventC) :
  (exists e w' t,
     Proxy__init__ cfg cls kwargs (mkWorld s0 t0) = (Raise e, w') /\
     trace w' = t0 ++ t /\
     calls t `prefix_of`
       ["__init__"; "server"; "model"; "codex"; "db"; "create_app"] /\
     (forall msg, ~ In (LogInfo msg) t)) \/
  (exists server model codex db s1 s2 s3 s4 s5 s6,
     base_init cls kwargs s0 = (Ok tt, s1) /\
     server_cls cls (host cfg) (port cfg) (ext_host cfg) (ext_port cfg) s1
       = (Ok server, s2) /\
     model_cls cls (lr cfg) (data_dir cfg) s2 = (Ok model, s3) /\
     codex_cls cls (multiplier cfg) (field cfg) s3 = (Ok codex, s4) /\
     db_cls cls s4 = (Ok db, s5) /\
     create_app server (routes codex) s5 = (Ok tt, s6) /\
     Proxy__init__ cfg cls kwargs (mkWorld s0 t0) =
     (Ok (mkProxy (is_ready server) server),
      mkWorld s6
        (t0 ++ [SuperInit kwargs;
                NewServer (host cfg) (port cfg) (ext_host cfg) (ext_port cfg);
                NewModel (lr cfg) (data_dir cfg);
                NewCodex (multiplier cfg) (field cfg);
                NewDb;
                CreateApp (routes codex);
                LogInfo (json_dumps_indent4
                  [("server", class_name server); ("codex", class_name codex);
                   ("model", class_name model); ("db", class_name db)])]))).
Proof.
  unfold Proxy__init__, bind.
  rewrite invoke_now_run.
  destruct (base_init cls kwargs s0) as [[[]|e] s1] eqn:E0; cycle 1.
  { init_failed e. }
  rewrite invoke_now_run.
  destruct (server_cls cls _ _ _ _ s1) as [[server|e] s2] eqn:E1; cycle 1.
  { init_failed e. }
  rewrite invoke_now_run.
  destruct (model_cls cls _ _ s2) as [[model|e] s3] eqn:E2; cycle 1.
  { init_failed e. }
  rewrite invoke_now_run.
  destruct (codex_cls cls _ _ s3) as [[codex|e] s4] eqn:E3; cycle 1.
  { init_failed e. }
  rewrite invoke_now_run.
  destruct (db_cls cls s4) as [[db|e] s5] eqn:E4; cycle 1.
  { init_failed e. }
  rewrite invoke_now_run.
  destruct (create_app server (routes codex) s5) as [[[]|e] s6] eqn:E5; cycle 1.
  { init_failed e. }
  right. exists server, model, codex, db, s1, s2, s3, s4, s5, s6.
  repeat (split; [first [assumption | reflexivity]|]).
  unfold log, ret. simpl. repeat rewrite <- app_assoc. reflexivity.
Qed.

(** X6: [__init__] returns a proxy only after the four classes have been
    instantiated — server, model, codex, db, in this order, each from its
    share of the configuration — and [create_app] has returned; the
    proxy's server is the one built, its readiness signal is that
    server's, and the log gained exactly the seven calls of a complete
    construction. *)
Theorem Proxy_init_returns_built_proxy (cfg : Config) (cls : ClassesC)
    (kwargs : gmap string Value) (s0 : St) (t0 : list EventC)
    (p : ProxyC) (w' : WorldC) :
  Proxy__init__ cfg cls kwargs (mkWorld s0 t0) = (Ok p, w') ->
  self_is_ready p = is_ready (self_server p) /\
  exists model codex db s1 s2 s3 s4 s5 t,
    server_cls cls (host cfg) (port cfg) (ext_host cfg) (ext_port cfg) s1
      = (Ok (self_server p), s2) /\
    model_cls cls (lr cfg) (data_dir cfg) s2 = (Ok model, s3) /\
    codex_cls cls (multiplier cfg) (field cfg) s3 = (Ok codex, s4) /\
    db_cls cls s4 = (Ok db, s5) /\
    create_app (self_server p) (routes codex) s5 = (Ok tt, st w') /\
    trace w' = t0 ++ t /\
    calls t = ["__init__"; "server"; "model"; "codex"; "db"; "create_app"; "info"].
Proof.
  intros Hrun.
  destruct (Proxy_init_cases cfg cls kwargs s0 t0)
    as [(e & w & t & Hr & _)
       |(server & model & codex & db & s1 & s2 & s3 & s4 & s5 & s6 &
         E0 & E1 & E2 & E3 & E4 & E5 & Hr)]; rewrite Hr in Hrun.
  - discriminate.
  - injection Hrun as <- <-. simpl. split; [reflexivity|].
    exists model, codex, db, s1, s2, s3, s4, s5. eexists.
    repeat (split; [eassumption|]). split; reflexivity.
Qed.

(** X7: when [__init__] raises, the calls it made are an initial part of
    [StatefulBase.__init__], server, model, codex, db, [create_app]: the
    classes after the one that failed are not instantiated, [create_app] is
    not called unless all four components were built, and the summary is
    not logged. *)
Theorem Proxy_init_failure_stops_construction (cfg : Config) (cls : ClassesC)
    (kwargs : gmap string Value) (s0 : St) (t0 : list EventC)
    (e : Exn) (w' : WorldC) :
  Proxy__init__ cfg cls kwargs (mkWorld s0 t0) = (Raise e, w') ->
  exists t,
    trace w' = t0 ++ t /\
    calls t `prefix_of`
      ["__init__"; "server"; "model"; "codex"; "db"; "create_app"] /\
    (forall msg, ~ In (LogInfo msg) t).
Proof.
  intros Hrun.
  destruct (Proxy_init_cases cfg cls kwargs s0 t0)
    as [(e1 & w & t & Hr & Ht & Hp & Hn)
       |(server & model & codex & db & s1 & s2 & s3 & s4 & s5 & s6 &
         _ & _ & _ & _ & _ & _ & Hr)]; rewrite Hr in Hrun.
  - injection Hrun as <- <-. exists t. auto.
  - discriminate.
Qed.

(** X8: when [server.start()] raises, [with self: body] raises the same
    exception without waiting for readiness, running the body or calling
    [server.exit()] and [server.join()]; when [is_ready.wait()] raises
    after [start] has returned, the body is not run either and the server
    that was started is neither asked to exit nor joined. *)
Theorem scope_not_entered {A} (self : ProxyC) (body : MC A)
    (s0 : St) (t0 : list EventC) :
  (forall e s1,
     start (self_server self) s0 = (Raise e, s1) ->
     with_ self body (mkWorld s0 t0) = (Raise e, mkWorld s1 (t0 ++ [Start]))) /\
  (forall e s1 s2,
     start (self_server self) s0 = (Ok tt, s1) ->
     wait (self_is_ready self) s1 = (Raise e, s2) ->
     with_ self body (mkWorld s0 t0) =
     (Raise e, mkWorld s2 (t0 ++ [Start; Wait]))).
Proof.
  split.
  - intros e s1 Hstart.
    unfold with_, Proxy__enter__, Proxy_enter, bind.
    rewrite invoke_now_run, Hstart. reflexivity.
  - intros e s1 s2 Hstart Hwait.
    unfold with_, Proxy__enter__, Proxy_enter, bind.
    rewrite invoke_now_run, Hstart, invoke_now_run, Hwait.
    rewrite <- app_assoc. reflexivity.
Qed.

(** X9: once the scope is entered, an exception of [server.exit()] or of
    [server.join()] is the outcome of [with self: body], whatever the body
    returned or raised; and when [server.exit()] raises, [server.join()] is
    not called. *)
Theorem scope_release_failure {A} (self : ProxyC) (body : MC A)
    (s0 s1 s2 : St) (t0 : list EventC) (rb : Res A) (wb : WorldC) :
  start (self_server self) s0 = (Ok tt, s1) ->
  wait (self_is_ready self) s1 = (Ok tt, s2) ->
  body (mkWorld s2 (t0 ++ [Start; Wait])) = (rb, wb) ->
  (forall e s3,
     exit (self_server self) (st wb) = (Raise e, s3) ->
     with_ self body (mkWorld s0 t0) =
     (Raise e,
      mkWorld s3 (trace wb ++ [LogCritical "Stopping proxy..."; Exit]))) /\
  (forall e s3 s4,
     exit (self_server self) (st wb) = (Ok tt, s3) ->
     join (self_server self) s3 = (Raise e, s4) ->
     with_ self body (mkWorld s0 t0) =
     (Raise e,
      mkWorld s4 (trace wb ++ [LogCritical "Stopping proxy..."; Exit; Join]))).
Proof.
  intros Hstart Hwait Hbody.
  assert (Henter : Proxy__enter__ self (mkWorld s0 t0) =
                   (Ok tt, mkWorld s2 (t0 ++ [Start; Wait]))).
  { unfold Proxy__enter__, Proxy_enter, bind.
    rewrite invoke_now_run, Hstart, invoke_now_run, Hwait.
    rewrite <- app_assoc. reflexivity. }
  split.
  - intros e s3 Hexit.
    assert (Hrelease : forall exc, Proxy__exit__ self exc wb =
              (Raise e, mkWorld s3 (trace wb ++
                 [LogCritical "Stopping proxy..."; Exit]))).
    { intros exc. unfold Proxy__exit__, Proxy_exit, bind, log.
      rewrite invoke_now_run. simpl. rewrite Hexit.
      rewrite <- app_assoc. reflexivity. }
    unfold with_. rewrite Henter, Hbody.
    destruct rb as [v|e0]; rewrite Hrelease; reflexivity.
  - intros e s3 s4 Hexit Hjoin.
    assert (Hrelease : forall exc, Proxy__exit__ self exc wb =
              (Raise e, mkWorld s4 (trace wb ++
                 [LogCritical "Stopping proxy..."; Exit; Join]))).
    { intros exc. unfold Proxy__exit__, Proxy_exit, bind, log.
      rewrite invoke_now_run. simpl. rewrite Hexit.
      rewrite invoke_now_run, Hjoin. repeat rewrite <- app_assoc.
      reflexivity. }
    unfold with_. rewrite Henter, Hbody.
    destruct rb as [v|e0]; rewrite Hrelease; reflexivity.
Qed.

End Construction.

(** * Runs of the concrete deployment *)

Section Runs.

Import Toy.

Abbreviation track0 := (track Toy.perf_counter "Proxy" db).
Abbreviation search0 := (search Toy.perf_counter "Proxy" server (model true true) codex db).
Abbreviation status0 := (status Toy.perf_counter "Proxy" server (model true true) codex db).

Lemma track_returns_result_witness :
  track0 (codex_magnify codex) "q=1" w0 =
    (Ok "q=1&size=100",
     mkWorld (mkState 1 [(1000%Q, "ToyCodex", "magnify")] 0)
             [Magnify "q=1"; Lap 1000 "ToyCodex" "magnify"]) /\
  track0 (server_ask server) "q=1" w0 =
    (Ok (ok "q=1"),
     mkWorld (mkState 1 [(1000%Q, "ToyServer", "ask")] 0)
             [Ask "q=1"; Lap 1000 "ToyServer" "ask"]).
Proof.
  split.
  - destruct (track_returns_result Toy.perf_counter "Proxy" db
                (codex_magnify codex) "q=1" w0 "q=1&size=100") as [Hsync _].
    destruct (Hsync (mkWorld (tick s0) [Magnify "q=1"]) eq_refl)
      as (_ & Hok & _).
    apply Hok. reflexivity.
  - destruct (track_returns_result Toy.perf_counter "Proxy" db
                (server_ask server) "q=1" w0 (ok "q=1")) as [_ Hasync].
    destruct (Hasync _ (mkWorld s0 [Ask "q=1"]) (mkWorld (tick s0) [Ask "q=1"])
                eq_refl eq_refl) as (_ & Hok & _).
    apply Hok. reflexivity.
Defined.

(** C5 fails when [db.lap] raises: [codex.magnify] has returned its value,
    yet the tracked call raises and the value is lost. *)
Lemma track_returns_result_counterexample :
  call (codex_magnify codex) "q=1" w0
    = (Ok (Plain "q=1&size=100"), mkWorld (tick s0) [Magnify "q=1"]) /\
  track Toy.perf_counter "Proxy" full_db (codex_magnify codex) "q=1" w0
    = (Raise "disk full",
       mkWorld (tick s0) [Magnify "q=1"; Lap 1000 "ToyCodex" "magnify"]) /\
  ~ (exists w',
       track Toy.perf_counter "Proxy" full_db (codex_magnify codex) "q=1" w0
       = (Ok "q=1&size=100", w')).
Proof.
  split; [reflexivity|]. split; [reflexivity|].
  intros (w' & H). discriminate H.
Qed.

Lemma track_propagates_error_witness :
  track0 (model_train (model false true)) ("q", ["a"], [true]) w0 =
    (Raise "training failed",
     mkWorld (mkState 1 [] 0) [Train "q" ["a"] [true]]) /\
  track0 boom tt w0 = (Raise "boom", w0).
Proof.
  split.
  - exact (proj1 (track_propagates_error Toy.perf_counter "Proxy" db
                    (model_train (model false true)) ("q", ["a"], [true]) w0
                    "training failed")
                 _ eq_refl).
  - exact (proj2 (track_propagates_error Toy.perf_counter "Proxy" db
                    boom tt w0 "boom")
                 _ _ _ eq_refl eq_refl).
Defined.

(** C6 fails on [StopIteration]: a method that raises it when called makes
    the tracked call raise a [RuntimeError] instead. *)
Lemma track_propagates_error_counterexample :
  call exhausted tt w0 = (Raise "StopIteration", w0) /\
  track0 exhausted tt w0
    = (Raise "RuntimeError: coroutine raised StopIteration", w0) /\
  track0 exhausted tt w0 <> (Raise "StopIteration", w0).
Proof.
  split; [reflexivity|]. split; [reflexivity|]. discriminate.
Qed.

Lemma track_samples_returns_only_witness :
  trace (track0 (codex_magnify codex) "q=1" w0).2
    = [Magnify "q=1"; Lap 1000 "ToyCodex" "magnify"] /\
  (0 <= 1000)%Q /\
  track0 (codex_magnify codex) "q=1" w0 =
    (Ok "q=1&size=100",
     mkWorld (mkState 1 [(1000%Q, "ToyCodex", "magnify")] 0)
             [Magnify "q=1"; Lap 1000 "ToyCodex" "magnify"]) /\
  track0 (model_train (model false true)) ("q", ["a"], [true]) w0 =
    (Raise "training failed",
     mkWorld (mkState 1 [] 0) [Train "q" ["a"] [true]]).
Proof.
  destruct (track_samples_returns_only Toy.perf_counter "Proxy" db
              (codex_magnify codex) "q=1" w0) as [Hret _].
  destruct (Hret "q=1&size=100" (mkWorld (tick s0) [Magnify "q=1"]) eq_refl)
    as (Htrace & Hms & Hok).
  split; [exact Htrace|]. split; [|split].
  - apply Hms. vm_compute. discriminate.
  - apply Hok. reflexivity.
  - exact (proj2 (track_samples_returns_only Toy.perf_counter "Proxy" db
                    (model_train (model false true)) ("q", ["a"], [true]) w0)
                 "training failed"
                 (mkWorld (mkState 1 [] 0) [Train "q" ["a"] [true]]) eq_refl).
Defined.

(** C1 fails on a wrapped operation that raises: the tracked [model.train]
    of a model whose [train] raises hands no sample to [db.lap]. *)
Lemma track_sample_on_raise_counterexample :
  let out := track0 (model_train (model false true)) ("q", ["a"], [true]) w0 in
  out.1 = Raise "training failed" /\
  ~ (exists ms cls func, In (Lap ms cls func) (trace out.2)) /\
  samples (st out.2) = [].
Proof.
  simpl. split; [reflexivity|]. split; [|reflexivity].
  intros (ms & cls & func & [H|[]]). discriminate H.
Qed.

Lemma search_success_path_witness :
  exists w',
    search0 "q=1" w0 = (Ok (ok "q=1&size=100,other"), w') /\
    List.length (laps (trace w')) = 7%nat /\
    clock (st w') = 6%Q.
Proof.
  eexists. split.
  - eapply (search_success_path Toy.perf_counter "Proxy" server
              (model true true) codex db "q=1"); reflexivity.
  - split; reflexivity.
Defined.

Lemma train_acks_after_training_returns_witness :
  (exists w',
     train_ Toy.perf_counter "Proxy" (model true true) codex db "click" w0
     = (Ok (ok "ack"), w')) /\
  train_ Toy.perf_counter "Proxy" (model false true) codex db "click" w0
  = (Raise "training failed",
     mkWorld (mkState 3 [(1000%Q, "ToyCodex", "pluck"); (1000%Q, "ToyDb", "get")] 0)
       [Pluck "click"; Lap 1000 "ToyCodex" "pluck";
        Get 7%nat [0%nat]; Lap 1000 "ToyDb" "get";
        Train "q" ["a"; "b"] [true; false]]).
Proof.
  split.
  - eexists.
    eapply (proj1 (train_acks_after_training_returns Toy.perf_counter "Proxy"
                     (model true true) codex db "click" 7%nat [0%nat]
                     "q" ["a"; "b"] [true; false] s0 _ _ _ _ []
                     eq_refl eq_refl eq_refl eq_refl));
      reflexivity.
  - pose (s1 := tick s0).
    pose (s1' := (lapped Toy.perf_counter db "ToyCodex" "pluck" s0 s1).2).
    pose (s2 := tick s1').
    pose (s2' := (lapped Toy.perf_counter db "ToyDb" "get" s1' s2).2).
    exact (proj2 (train_acks_after_training_returns Toy.perf_counter "Proxy"
                    (model false true) codex db "click" 7%nat [0%nat]
                    "q" ["a"; "b"] [true; false] s0 s1 s1' s2 s2' []
                    eq_refl eq_refl eq_refl eq_refl)
                 "training failed" (tick s2') eq_refl).
Defined.

(** C3 fails when [model.train] raises: [codex.pluck] and [db.get] have
    returned, yet the pipeline returns no response and [codex.ack] is not
    called. *)
Lemma train_ack_regardless_counterexample :
  let out := train_ Toy.perf_counter "Proxy" (model false true) codex db "click" w0 in
  In (Lap 1000 "ToyCodex" "pluck") (trace out.2) /\
  In (Lap 1000 "ToyDb" "get") (trace out.2) /\
  out.1 = Raise "training failed" /\
  ~ (exists resp, out.1 = Ok resp) /\
  ~ (exists qid cids, In (Ack qid cids) (trace out.2)).
Proof.
  simpl. split; [auto|]. split; [do 3 right; left; reflexivity|].
  split; [reflexivity|]. split.
  - intros (resp & H). discriminate H.
  - intros (qid & cids & H). simpl in H.
    repeat (destruct H as [H|H]; [discriminate H|]). exact H.
Qed.

Lemma status_chains_in_order_witness :
  status0 "/status" w0 =
  (Ok (ok "all up"),
   mkWorld (mkState 1 [(1000%Q, "Proxy", "status")] 0)
     [ServerChainState ∅;
      CodexChainState {["server" := "up"]};
      ModelChainState (<["codex" := "x10"]> {["server" := "up"]});
      DbChainState (<["model" := "idle"]> (<["codex" := "x10"]> {["server" := "up"]}));
      Pulse (<["db" := "mem"]> (<["model" := "idle"]>
               (<["codex" := "x10"]> {["server" := "up"]})));
      Lap 1000 "Proxy" "status"]).
Proof.
  apply (proj2 (status_chains_in_order Toy.perf_counter "Proxy" server
                  (model true true) codex db "/status" s0 [])).
  eexists _, _, _, _, _, _, _, _, _, _.
  repeat (split; [reflexivity|]). reflexivity.
Defined.

Lemma status_tracked_as_a_whole_witness :
  exists t,
    trace (status0 "/status" w0).2 = t /\
    laps t = [Lap 1000 "Proxy" "status"].
Proof.
  destruct (status_tracked_as_a_whole Toy.perf_counter "Proxy" server
              (model true true) codex db "/status" s0 [])
    as (_ & t & Ht & _ & _).
  exists t. split; [exact Ht|].
  change (trace w1 = t) in Ht. subst t. reflexivity.
Defined.

(** C10 fails on a [status] call one of whose untracked calls raises: when
    [model.chain_state] raises, no sample at all reaches [db.lap]. *)
Lemma status_one_sample_counterexample :
  let out := status Toy.perf_counter "Proxy" server (model true false) codex db
               "/status" w0 in
  out.1 = Raise "no state" /\
  ~ (exists ms cls func, In (Lap ms cls func) (trace out.2)) /\
  samples (st out.2) = [].
Proof.
  simpl. split; [reflexivity|]. split; [|reflexivity].
  intros (ms & cls & func & H). simpl in H.
  repeat (destruct H as [H|H]; [discriminate H|]). exact H.
Qed.

Lemma toy_keys_stable (cls k v : string) :
  keys_stable (fun _ _ : State => True) (mkStateful cls (extend k v)).
Proof.
  intros d d' d1 d1' s s' s1 s1' _ Hdom H H'.
  injection H as <- _. injection H' as <- _.
  split; [|exact I]. rewrite !dom_insert_L, Hdom. reflexivity.
Qed.

Lemma status_twice_same_keys_witness :
  exists d d',
    last_pulse (trace w1) = Some d /\
    last_pulse (trace (status0 "/status" w1).2) = Some d' /\
    dom d = dom d' /\
    d = <["db" := "mem"]> (<["model" := "idle"]>
          (<["codex" := "x10"]> (<["server" := "up"]> ∅))) /\
    d' = d.
Proof.
  destruct (status_twice_same_keys Toy.perf_counter "Proxy" server
               (model true true) codex db (fun _ _ => True)
               "/status" "/status" s0 (st w1) [] (trace w1)
               (ok "all up") (ok "all up") w1 (status0 "/status" w1).2)
    as (d & d' & H1 & H2 & Hkeys & Hpure); [reflexivity|reflexivity|].
  exists d, d'. split; [exact H1|]. split; [exact H2|]. split.
  - apply Hkeys; [exact I|apply toy_keys_stable..].
  - apply (Hpure (insert "server" "up") (insert "codex" "x10")
                 (insert "model" "idle") (insert "db" "mem"));
      intros ? ?; reflexivity.
Defined.

(** C9 fails for a db that reports the latency under its own key once a
    sample exists: two [status] calls one after the other, with nothing in
    between, both return, and the second dictionary has a key the first
    has not.  The only change between them is the sample of the first
    call, recorded by the call itself. *)
Lemma status_same_keys_counterexample :
  let status_ := status Toy.perf_counter "Proxy" server (model true true)
                   codex reporting_db "/status" in
  let first := status_ w0 in
  let second := status_ first.2 in
  first.1 = Ok (ok "all up") /\
  second.1 = Ok (ok "partial") /\
  exists d d',
    last_pulse (trace first.2) = Some d /\
    last_pulse (trace second.2) = Some d' /\
    d !! "latency" = None /\
    d' !! "latency" = Some "sampled" /\
    dom d <> dom d'.
Proof.
  cbv zeta. split; [reflexivity|]. split; [reflexivity|].
  eexists _, _. split; [reflexivity|]. split; [reflexivity|].
  split; [reflexivity|]. split; [reflexivity|].
  intros Hdom.
  assert (H : "latency" ∈ dom (<["latency" := "sampled"]>
                (<["db" := "mem"]> (<["model" := "idle"]>
                  (<["codex" := "x10"]> (<["server" := "up"]>
                    (∅ : gmap string string))))))).
  { rewrite dom_insert_L. set_solver. }
  revert H. rewrite <- Hdom. rewrite !dom_insert_L, dom_empty_L.
  set_solver.
Qed.

Lemma scoped_acquisition_witness :
  with_ proxy (ret 1%nat) w0 =
    (Ok 1%nat,
     mkWorld (mkState 4 [] 0)
       [Start; Wait; LogCritical "Stopping proxy..."; Exit; Join]) /\
  with_ proxy (raise (A:=nat) "body failed") w0 =
    (Raise "body failed",
     mkWorld (mkState 4 [] 0)
       [Start; Wait; LogCritical "Stopping proxy..."; Exit; Join]).
Proof.
  split.
  - apply (scoped_acquisition proxy (ret 1%nat) s0 (tick s0) (tick (tick s0))
             (tick (tick (tick s0))) (tick (tick (tick (tick s0)))) []
             (Ok 1%nat) (mkWorld (tick (tick s0)) [Start; Wait]));
      reflexivity.
  - apply (scoped_acquisition proxy (raise "body failed") s0 (tick s0)
             (tick (tick s0)) (tick (tick (tick s0)))
             (tick (tick (tick (tick s0)))) []
             (Raise "body failed") (mkWorld (tick (tick s0)) [Start; Wait]));
      reflexivity.
Defined.

Lemma Proxy_init_hands_routes_once_witness :
  exists w',
    Proxy__init__ default_config (classes true true) ∅ w0 = (Ok proxy, w') /\
    List.filter (fun e => match e with CreateApp _ => true | _ => false end)
                (trace w')
    = [CreateApp (routes codex)] /\
    routes codex !! SEARCH = Some ("/search", SearchFn) /\
    (forall k p, routes codex !! k <> Some (p, NotFoundFn)).
Proof.
  destruct (Proxy_init_hands_routes_once Toy.perf_counter "Proxy"
              default_config (classes true true) ∅
              server (model true true) codex db
              s0 s0 s0 s0 s0 s0 (tick s0) []
              eq_refl eq_refl eq_refl eq_refl eq_refl eq_refl)
    as (Hrun & Hsearch & _ & _ & _ & Hnot_found & _).
  eexists. split; [exact Hrun|]. split; [reflexivity|].
  split; [exact Hsearch|exact Hnot_found].
Defined.

End Runs.

(** * Runs of the concrete deployment: failures *)

Section FailureRuns.

Import Toy.

Abbreviation search1 :=
  (search Toy.perf_counter "Proxy" (faulty_server true true true false)
          (model true true) codex db).


Lemma Proxy_init_returns_built_proxy_witness :
  self_is_ready proxy = is_ready (self_server proxy) /\
  exists model codex db s1 s2 s3 s4 s5 t,
    server_cls (classes true true) "127.0.0.1" 53001 "127.0.0.1" 54001 s1
      = (Ok (self_server proxy), s2) /\
    model_cls (classes true true) (1 # 100)%Q "/.cache" s2 = (Ok model, s3) /\
    codex_cls (classes true true) 10 None s3 = (Ok codex, s4) /\
    db_cls (classes true true) s4 = (Ok db, s5) /\
    create_app (self_server proxy) (routes codex) s5 = (Ok tt, tick s0) /\
    trace (Proxy__init__ default_config (classes true true) ∅ w0).2 = [] ++ t /\
    calls t = ["__init__"; "server"; "model"; "codex"; "db"; "create_app"; "info"].
Proof.
  exact (Proxy_init_returns_built_proxy default_config (classes true true) ∅
           s0 [] proxy
           (Proxy__init__ default_config (classes true true) ∅ w0).2 eq_refl).
Defined.

Lemma Proxy_init_failure_stops_construction_witness :
  exists t,
    trace (Proxy__init__ default_config faulty_classes ∅ w0).2 = [] ++ t /\
    calls t `prefix_of`
      ["__init__"; "server"; "model"; "codex"; "db"; "create_app"] /\
    (forall msg, ~ In (LogInfo msg) t).
Proof.
  exact (Proxy_init_failure_stops_construction default_config faulty_classes ∅
           s0 [] "bad multiplier"
           (Proxy__init__ default_config faulty_classes ∅ w0).2 eq_refl).
Defined.

Lemma scope_not_entered_witness :
  with_ (faulty_proxy false true true) (ret 1%nat) w0 =
    (Raise "port in use", mkWorld (tick s0) [Start]) /\
  with_ (faulty_proxy true false true) (ret 1%nat) w0 =
    (Raise "interrupted", mkWorld (tick (tick s0)) [Start; Wait]).
Proof.
  split.
  - apply (proj1 (scope_not_entered (faulty_proxy false true true)
                    (ret 1%nat) s0 [])).
    reflexivity.
  - apply (proj2 (scope_not_entered (faulty_proxy true false true)
                    (ret 1%nat) s0 []) _ (tick s0)); reflexivity.
Defined.

Lemma scope_release_failure_witness :
  with_ (faulty_proxy true true false) (raise (A:=nat) "body failed") w0 =
    (Raise "not running",
     mkWorld (tick (tick (tick s0)))
       [Start; Wait; LogCritical "Stopping proxy..."; Exit]).
Proof.
  apply (proj1 (scope_release_failure (faulty_proxy true true false)
                  (raise "body failed") s0 (tick s0) (tick (tick s0)) []
                  (Raise "body failed") (mkWorld (tick (tick s0)) [Start; Wait])
                  eq_refl eq_refl eq_refl)).
  reflexivity.
Defined.

Lemma not_found_forwards_witness :
  not_found Toy.perf_counter "Proxy" server db "/favicon.ico" w0 =
  (Ok (ok "/favicon.ico"),
   mkWorld (mkState 1 [(1000%Q, "ToyServer", "forward");
                       (1000%Q, "Proxy", "not_found")] 0)
     [Forward "/favicon.ico"; Lap 1000 "ToyServer" "forward";
      Lap 1000 "Proxy" "not_found"]).
Proof.
  exact (not_found_forwards Toy.perf_counter "Proxy" server db
           "/favicon.ico" s0 []).
Defined.

Lemma error_catches_witness :
  error Toy.perf_counter "Proxy" codex db "upstream down" w0 =
  (Ok (mkResponse "HTTP/1.1" 500 [] "upstream down"),
   mkWorld (mkState 1 [(1000%Q, "ToyCodex", "catch");
                       (1000%Q, "Proxy", "error")] 0)
     [Catch "upstream down"; Lap 1000 "ToyCodex" "catch";
      Lap 1000 "Proxy" "error"]).
Proof.
  exact (error_catches Toy.perf_counter "Proxy" codex db "upstream down" s0 []).
Defined.


End FailureRuns.
